(** * The fuzzy-search service: search, pagination, year filter, lookup

    A shallow embedding of [src/services/searchService.js] and of the parts of
    [src/controllers/searchController.js] that post-process its results.

    Conventions.
    - JavaScript numbers that the code uses as integers (limit, page, years,
      clock readings) are [Z]; scores and thresholds are [Q].  [NaN] and
      [undefined] inputs are [None].  Array lengths stay far below 2^53, so
      [Math.ceil (n / d)] is the exact integer ceiling whenever [d <> 0].
    - [async] methods become state-passing functions on the service object;
      a rejected promise is [Throw].
    - [Date.now ()] is read twice per search; the two readings are explicit
      arguments.
    - The matching engine is the third-party package fuse.js, whose code is
      not part of the repository.  Its ranking is modelled from sections 4.1
      to 4.3 of the specification, with the blended cost as a parameter. *)

From Stdlib Require Import ZArith QArith String Ascii List Bool Lia DecimalString Sorted.
From stdpp Require Import base list.

Local Open Scope Z_scope.

(** ** JavaScript helpers *)

Module Js.

(** Results of [Math.ceil (length / limit)]. Negative zero is folded into [0]. *)
Inductive Number :=
| Finite (z : Z)
| Infinity
| NaN.

(** [x || d] for a number [x] that may be [NaN]. *)
Definition orZ (x : option Z) (d : Z) : Z :=
  match x with
  | Some z => if z =? 0 then d else z
  | None => d
  end.

Definition orQ (x : option Q) (d : Q) : Q :=
  match x with
  | Some q => if Qeq_bool q 0 then d else q
  | None => d
  end.

(** [x || undefined] *)
Definition orUndefinedZ (x : option Z) : option Z :=
  match x with
  | Some z => if z =? 0 then None else Some z
  | None => None
  end.

Definition orUndefinedQ (x : option Q) : option Q :=
  match x with
  | Some q => if Qeq_bool q 0 then None else Some q
  | None => None
  end.

(** Destructuring default [{ x = d } = options]. *)
Definition orDefault {A} (x : option A) (d : A) : A :=
  match x with
  | Some a => a
  | None => d
  end.

(** [Math.ceil (n / d)] for an array length [n]. *)
Definition ceilDiv (n : nat) (d : Z) : Number :=
  if d =? 0 then
    match n with
    | O => NaN
    | S _ => Infinity
    end
  else Finite (- ((- Z.of_nat n) / d)).

(** Relative index of [Array.prototype.slice]: negative counts from the end. *)
Definition relIndex (len : nat) (i : Z) : nat :=
  if i <? 0 then Z.to_nat (Z.max (Z.of_nat len + i) 0)
  else Z.to_nat (Z.min i (Z.of_nat len)).

(** [arr.slice (s, e)] *)
Definition slice {A} (arr : list A) (s e : Z) : list A :=
  let k := relIndex (length arr) s in
  let final := relIndex (length arr) e in
  take (final - k) (drop k arr).

(** Truthiness of a string that may be [undefined]. *)
Definition truthy (s : option string) : bool :=
  match s with
  | Some EmptyString => false
  | Some _ => true
  | None => false
  end.

(** White space removed by [trim] (ASCII strings only). *)
Definition isSpace (c : ascii) : bool :=
  let n := nat_of_ascii c in
  ((9 <=? n) && (n <=? 13))%nat || (n =? 32)%nat.

Fixpoint trimStart (s : string) : string :=
  match s with
  | EmptyString => EmptyString
  | String c s' => if isSpace c then trimStart s' else s
  end.

Fixpoint trimEnd (s : string) : string :=
  match s with
  | EmptyString => EmptyString
  | String c s' =>
      match trimEnd s' with
      | EmptyString => if isSpace c then EmptyString else String c EmptyString
      | r => String c r
      end
  end.

Definition trim (s : string) : string := trimEnd (trimStart s).

(** The template literal [`${n}ms`]. *)
Definition ms (n : Z) : string :=
  (NilZero.string_of_int (Z.to_int n) ++ "ms")%string.

(** [[...new Set (arr)]]: the first occurrence of each string, in order;
    [seen] holds the strings already in the set. *)
Fixpoint distinctFrom (seen arr : list string) : list string :=
  match arr with
  | [] => []
  | x :: arr' =>
      if existsb (String.eqb x) seen then distinctFrom seen arr'
      else x :: distinctFrom (x :: seen) arr'
  end.

Definition distinct (arr : list string) : list string := distinctFrom [] arr.

(** [arr.sort ()] on strings: ascending by code units, a proper prefix first.
    The order is total and equal strings are identical, so the sorted array
    does not depend on the algorithm; an insertion sort computes it. *)
Fixpoint insertString (s : string) (l : list string) : list string :=
  match l with
  | [] => [s]
  | x :: l' => if String.leb s x then s :: l else x :: insertString s l'
  end.

Definition sort (arr : list string) : list string := fold_right insertString [] arr.

End Js.

(** ** Inventory records, as stored in data/INVENTARIO_ACTUAL.json *)

Record Item := {
  producto_id : string;
  marca_vehiculo : string;
  descripcion_corta : string;
  condicion : string;
  calidad_repuesto : string;
  anio_desde : Z;
  anio_hasta : Z
}.

(** ** The matching engine *)

Module Fuse.

Record Key := { name : string; weight : Q }.

Record Options := {
  keys : list Key;
  threshold : Q;
  includeScore : bool;
  includeMatches : bool;
  minMatchCharLength : nat;
  findAllMatches : bool;
  location : Z;
  distance : Z;
  useExtendedSearch : bool;
  ignoreLocation : bool;
  ignoreFieldNorm : bool
}.

(** A matched field with its spans (an entry of [result.matches]). *)
Record FieldMatch := {
  field : string;
  matchedSpans : list (nat * nat)
}.

(** A search result; the service reads [item], [score] and [matches]. *)
Record Result := {
  item : Item;
  score : Q;
  matches : list FieldMatch
}.

(** [new Fuse (docs, options)] *)
Record t := { docs : list Item; options : Options }.

(** Modelled from the spec: the approximate-match cost of section 4.1 and the
    matched spans.  The specification leaves the formula to the implementer
    (it blends edit distance with a location penalty attenuated by
    [distance]); the code gets it from fuse.js, which is absent from src/. *)
Class Matcher := {
  cost : Z -> string -> string -> Q;
  spans : string -> string -> list (nat * nat)
}.

Definition getField (it : Item) (k : string) : option string :=
  if String.eqb k "marca_vehiculo" then Some (marca_vehiculo it)
  else if String.eqb k "descripcion_corta" then Some (descripcion_corta it)
  else if String.eqb k "producto_id" then Some (producto_id it)
  else if String.eqb k "condicion" then Some (condicion it)
  else if String.eqb k "calidad_repuesto" then Some (calidad_repuesto it)
  else None.

Section Engine.
Context {matcher : Matcher}.

(** Modelled from the spec: the Fuzzy Matcher of section 4.1 (fuse.js is absent
    from src/).  A query shorter than the minimum match length never matches;
    otherwise the field matches iff the cost is at most the threshold, and the
    score is that cost. *)
Definition fuzzyMatch (o : Options) (query text : string) : option (Q * list (nat * nat)) :=
  if (String.length query <? minMatchCharLength o)%nat then None
  else
    let c := cost (distance o) query text in
    if Qle_bool c (threshold o) then Some (c, spans query text) else None.

(** Modelled from the spec: one configured field put to the Fuzzy Matcher, as
    the Field Scorer of section 4.2 does for each field (fuse.js is absent
    from src/). *)
Definition matchKey (o : Options) (query : string) (it : Item) (k : Key)
  : option (Key * Q * FieldMatch) :=
  match getField it (name k) with
  | None => None
  | Some text =>
      match fuzzyMatch o query text with
      | None => None
      | Some (c, sp) => Some (k, c, {| field := name k; matchedSpans := sp |})
      end
  end.

(** Modelled from the spec: the numerator and the denominator of the record
    score of section 4.2 (fuse.js is absent from src/). *)
Definition weightedSum (hits : list (Key * Q * FieldMatch)) : Q :=
  fold_right (fun h acc => (snd (fst h) * weight (fst (fst h)) + acc)%Q) 0%Q hits.

Definition weightTotal (hits : list (Key * Q * FieldMatch)) : Q :=
  fold_right (fun h acc => (weight (fst (fst h)) + acc)%Q) 0%Q hits.

(** Modelled from the spec: the Field Scorer of section 4.2 (fuse.js is absent
    from src/).  A record matches iff at least one configured field matches;
    its score is the weighted sum of the matching fields' scores divided by
    the sum of their weights. *)
Definition scoreRecord (o : Options) (query : string) (it : Item) : option Result :=
  match omap (matchKey o query it) (keys o) with
  | [] => None
  | hits =>
      Some {| item := it;
              score := (weightedSum hits / weightTotal hits)%Q;
              matches := map snd hits |}
  end.

(** Modelled from the spec: the stable sort by ascending score of sections
    4.2 and 4.3, as an insertion sort (fuse.js is absent from src/): [r] goes
    before the first element whose score is not below its own, so records of
    equal score keep their store order. *)
Fixpoint insertByScore (r : Result) (l : list Result) : list Result :=
  match l with
  | [] => [r]
  | x :: l' => if Qle_bool (score r) (score x) then r :: l else x :: insertByScore r l'
  end.

Definition sortByScore (l : list Result) : list Result :=
  fold_right insertByScore [] l.

(** Modelled from the spec: the linear scan of section 4.3 (fuse.js is absent
    from src/): the records of the store that the Field Scorer accepts, in
    store order. *)
Definition candidates (f : t) (query : string) : list Result :=
  omap (scoreRecord (options f) query) (docs f).

(** Modelled from the spec: the Ranker of section 4.3 before truncation
    (fuse.js is absent from src/): the matching records by ascending score,
    ties in record-store order. *)
Definition rankAll (f : t) (query : string) : list Result :=
  sortByScore (candidates f query).

(** Modelled from the spec: [fuse.search (query, { limit })], the Ranker of
    section 4.3 with [limit] as its candidate cap (fuse.js is absent from
    src/).  The specification gives a negative cap no meaning; here it keeps
    nothing, and no statement below turns on that case. *)
Definition search (f : t) (query : string) (limit : Z) : list Result :=
  take (Z.to_nat limit) (rankAll f query).

(** The records that match a query, in record-store order. *)
Definition matching (f : t) (query : string) : list Item :=
  map item (candidates f query).

End Engine.

End Fuse.

(** ** The process environment and the data file *)

(** What [parseFloat] and [parseInt] return on the environment variables
    ([None] is [NaN]: unset or not a number). *)
Record Env := {
  FUSE_THRESHOLD : option Q;
  DEFAULT_SEARCH_LIMIT : option Z;
  MAX_SEARCH_LIMIT : option Z
}.

(** [dataFile] is the parsed content of data/INVENTARIO_ACTUAL.json, or [None]
    when reading or parsing it fails. *)
Record World := {
  env : Env;
  dataFile : option (list Item)
}.

(** ** Results returned to callers *)

(** [{ ...result.item, score: result.score, matches: result.matches }] *)
Module Formatted.
Record t := {
  item : Item;
  score : Q;
  matches : list Fuse.FieldMatch
}.
End Formatted.

(** The [data] object of [search]. *)
Module SearchData.
Record t := {
  results : list Formatted.t;
  total : nat;
  page : Z;
  limit : Z;
  totalPages : Js.Number;
  query : string;
  searchTime : string
}.
End SearchData.

(** The [data] object of [searchWithYearRange]. *)
Module YearData.
Record t := {
  results : list Formatted.t;
  total : nat;
  page : Z;
  limit : Z;
  totalPages : Js.Number;
  query : string;
  searchYear : option Z;
  searchTime : string;
  yearFiltered : bool
}.
End YearData.

Record Response (D : Type) := {
  success : bool;
  data : D
}.
Arguments success {D} _.
Arguments data {D} _.

(** The object returned by [getItemById]: [{ success: true, data: item }] or
    [{ success: false, message: 'Item not found' }]. *)
Module ItemResponse.
Record t := {
  success : bool;
  data : option Item;
  message : option string
}.
End ItemResponse.

(** The options bag of the search methods. *)
Module Options.
Record t := {
  limit : option Z;
  page : option Z;
  threshold : option Q;
  fields : option (list string)
}.
End Options.

(** The [data] object of [getVehicleBrands]. *)
Module BrandsData.
Record t := {
  brands : list string;
  total : nat
}.
End BrandsData.

(** The [data] object of [getSearchStats]. *)
Module StatsData.
Record t := {
  totalItems : nat;
  uniqueBrands : nat;
  brands : list string;
  conditions : list string;
  qualities : list string;
  lastUpdated : string
}.
End StatsData.

(** ** The search service *)

Inductive Error :=
| LoadError
| TypeError.

Inductive Outcome (A : Type) :=
| Return (a : A)
| Throw (e : Error).
Arguments Return {A} _.
Arguments Throw {A} _.

Module SearchService.

Record t := {
  inventory : list Item;
  fuse : option Fuse.t;
  isInitialized : bool
}.

(** A method of the service: it runs on [this] and returns a value and the
    updated [this], or throws. *)
Definition M (A : Type) : Type := t -> Outcome (A * t).

Definition ret {A} (a : A) : M A := fun this => Return (a, this).

Definition bind {A B} (m : M A) (k : A -> M B) : M B :=
  fun this =>
    match m this with
    | Return (a, this') => k a this'
    | Throw e => Throw e
    end.

Definition throw {A} (e : Error) : M A := fun _ => Throw e.

Definition get : M t := fun this => Return (this, this).

Notation "x <- m ;; k" := (bind m (fun x => k))
  (at level 100, m at next level, right associativity).

Definition constructor : t :=
  {| inventory := []; fuse := None; isInitialized := false |}.

Definition fuseOptions (e : Env) : Fuse.Options :=
  {| Fuse.keys := [ {| Fuse.name := "marca_vehiculo"; Fuse.weight := 6 # 10 |};
                    {| Fuse.name := "descripcion_corta"; Fuse.weight := 4 # 10 |} ];
     Fuse.threshold := Js.orQ (FUSE_THRESHOLD e) (3 # 10);
     Fuse.includeScore := true;
     Fuse.includeMatches := true;
     Fuse.minMatchCharLength := 3;
     Fuse.findAllMatches := true;
     Fuse.location := 0;
     Fuse.distance := 100;
     Fuse.useExtendedSearch := true;
     Fuse.ignoreLocation := true;
     Fuse.ignoreFieldNorm := true |}.

Definition initialize (w : World) : M unit :=
  fun _ =>
    match dataFile w with
    | None => Throw LoadError
    | Some parsed =>
        Return (tt, {| inventory := parsed;
                       fuse := Some {| Fuse.docs := parsed; Fuse.options := fuseOptions (env w) |};
                       isInitialized := true |})
    end.

(** [if (!this.isInitialized) { await this.initialize(); }] *)
Definition ensureInitialized (w : World) : M unit :=
  fun this => if isInitialized this then Return (tt, this) else initialize w this.

(** [this.fuse.search (...)] on a [null] engine throws. *)
Definition theFuse : M Fuse.t :=
  fun this =>
    match fuse this with
    | Some f => Return (f, this)
    | None => Throw TypeError
    end.

Definition format (r : Fuse.Result) : Formatted.t :=
  {| Formatted.item := Fuse.item r;
     Formatted.score := Fuse.score r;
     Formatted.matches := Fuse.matches r |}.

Definition defaultLimit (w : World) : Z := Js.orZ (DEFAULT_SEARCH_LIMIT (env w)) 10.

Definition maxLimit (w : World) : Z := Js.orZ (MAX_SEARCH_LIMIT (env w)) 100.

(** [Math.min (limit, maxLimit)] *)
Definition actualLimit (w : World) (options : Options.t) : Z :=
  Z.min (Js.orDefault (Options.limit options) (defaultLimit w)) (maxLimit w).

Definition pageOf (options : Options.t) : Z := Js.orDefault (Options.page options) 1.

Section Methods.
Context {matcher : Fuse.Matcher}.

Definition search (w : World) (query : string) (options : Options.t) (startTime endTime : Z)
  : M (Response SearchData.t) :=
  _ <- ensureInitialized w ;;
  let page := pageOf options in
  let actualLimit := actualLimit w options in
  f <- theFuse ;;
  let results := Fuse.search f query (actualLimit * page) in
  let startIndex := (page - 1) * actualLimit in
  let endIndex := startIndex + actualLimit in
  let paginatedResults := Js.slice results startIndex endIndex in
  let formattedResults := map format paginatedResults in
  let searchTime := endTime - startTime in
  ret {| success := true;
         data := {| SearchData.results := formattedResults;
                    SearchData.total := length results;
                    SearchData.page := page;
                    SearchData.limit := actualLimit;
                    SearchData.totalPages := Js.ceilDiv (length results) actualLimit;
                    SearchData.query := query;
                    SearchData.searchTime := Js.ms searchTime |} |}.

(** [{ ...options, fields: [...] }] *)
Definition withFields (options : Options.t) (fs : list string) : Options.t :=
  {| Options.limit := Options.limit options;
     Options.page := Options.page options;
     Options.threshold := Options.threshold options;
     Options.fields := Some fs |}.

Definition searchByBrand (w : World) (brand : string) (options : Options.t) (startTime endTime : Z)
  : M (Response SearchData.t) :=
  search w brand (withFields options ["marca_vehiculo"%string]) startTime endTime.

Definition searchByDescription (w : World) (description : string) (options : Options.t)
    (startTime endTime : Z) : M (Response SearchData.t) :=
  search w description (withFields options ["descripcion_corta"%string]) startTime endTime.

(** [searchYear && !isNaN (searchYear)] *)
Definition yearGiven (searchYear : option Z) : bool :=
  match searchYear with
  | Some y => negb (y =? 0)
  | None => false
  end.

(** [searchYear >= itemYearFrom && searchYear <= itemYearTo] *)
Definition inYearRange (searchYear : Z) (result : Fuse.Result) : bool :=
  let item := Fuse.item result in
  (searchYear >=? anio_desde item) && (searchYear <=? anio_hasta item).

(** Step 1 of [searchWithYearRange]: the text results. *)
Definition textResults (f : Fuse.t) (w : World) (query : string) (options : Options.t)
  : list Fuse.Result :=
  Fuse.search f query (actualLimit w options * pageOf options * 2).

(** Step 2 of [searchWithYearRange]: the year filter. *)
Definition filterByYear (searchYear : option Z) (textResults : list Fuse.Result)
  : list Fuse.Result :=
  match searchYear with
  | Some y => if yearGiven searchYear then List.filter (inYearRange y) textResults else textResults
  | None => textResults
  end.

Definition searchWithYearRange (w : World) (query : string) (searchYear : option Z)
    (options : Options.t) (startTime endTime : Z) : M (Response YearData.t) :=
  _ <- ensureInitialized w ;;
  let page := pageOf options in
  let actualLimit := actualLimit w options in
  f <- theFuse ;;
  let filteredResults := filterByYear searchYear (textResults f w query options) in
  let startIndex := (page - 1) * actualLimit in
  let endIndex := startIndex + actualLimit in
  let paginatedResults := Js.slice filteredResults startIndex endIndex in
  let formattedResults := map format paginatedResults in
  let searchTime := endTime - startTime in
  ret {| success := true;
         data := {| YearData.results := formattedResults;
                    YearData.total := length filteredResults;
                    YearData.page := page;
                    YearData.limit := actualLimit;
                    YearData.totalPages := Js.ceilDiv (length filteredResults) actualLimit;
                    YearData.query := query;
                    YearData.searchYear := Js.orUndefinedZ searchYear;
                    YearData.searchTime := Js.ms searchTime;
                    YearData.yearFiltered := yearGiven searchYear |} |}.

End Methods.

Definition getItemById (w : World) (productId : string) : M ItemResponse.t :=
  _ <- ensureInitialized w ;;
  this <- get ;;
  match List.find (fun item => String.eqb (producto_id item) productId) (inventory this) with
  | None =>
      ret {| ItemResponse.success := false;
             ItemResponse.data := None;
             ItemResponse.message := Some "Item not found"%string |}
  | Some item =>
      ret {| ItemResponse.success := true;
             ItemResponse.data := Some item;
             ItemResponse.message := None |}
  end.

Definition getVehicleBrands (w : World) : M (Response BrandsData.t) :=
  _ <- ensureInitialized w ;;
  this <- get ;;
  let brands := Js.distinct (map marca_vehiculo (inventory this)) in
  ret {| success := true;
         data := {| BrandsData.brands := Js.sort brands;
                    BrandsData.total := length brands |} |}.

(** [lastUpdated] is [new Date ().toISOString ()], an argument here. *)
Definition getSearchStats (w : World) (lastUpdated : string) : M (Response StatsData.t) :=
  _ <- ensureInitialized w ;;
  this <- get ;;
  let brands := Js.distinct (map marca_vehiculo (inventory this)) in
  let conditions := Js.distinct (map condicion (inventory this)) in
  let qualities := Js.distinct (map calidad_repuesto (inventory this)) in
  ret {| success := true;
         data := {| StatsData.totalItems := length (inventory this);
                    StatsData.uniqueBrands := length brands;
                    StatsData.brands := Js.sort brands;
                    StatsData.conditions := Js.sort conditions;
                    StatsData.qualities := Js.sort qualities;
                    StatsData.lastUpdated := lastUpdated |} |}.

End SearchService.

(** ** The HTTP handlers that post-process search results *)

Module SearchController.

(** A query-string parameter that a handler passes to [parseInt]: absent (or
    empty, hence falsy), or a non-empty text with what [parseInt] makes of it
    ([None] is [NaN]). *)
Inductive Param :=
| Missing
| Text (parsed : option Z).

Definition given (p : Param) : bool :=
  match p with
  | Missing => false
  | Text _ => true
  end.

Definition parseInt (p : Param) : option Z :=
  match p with
  | Missing => None
  | Text parsed => parsed
  end.

(** [req.query]; [threshold] holds what [parseFloat] returns on it. *)
Record Query := {
  q : option string;
  brand : option string;
  condition : option string;
  quality : option string;
  yearFrom : Param;
  yearTo : Param;
  limit : Param;
  page : Param;
  threshold : option Q
}.

(** What a handler does with [res] and [next]. *)
Inductive Reply (B : Type) :=
| Status400 (message example : string)
| Json (body : B)
| Next (e : Error).
Arguments Status400 {B} _ _.
Arguments Json {B} _.
Arguments Next {B} _.

Definition optionsOf (query : Query) : Options.t :=
  {| Options.limit := Js.orUndefinedZ (parseInt (limit query));
     Options.page := Some (Js.orZ (parseInt (page query)) 1);
     Options.threshold := Js.orUndefinedQ (threshold query);
     Options.fields := None |}.

(** [!q || q.trim () === ''] *)
Definition blank (s : option string) : bool :=
  match s with
  | Some text => negb (Js.truthy s) || String.eqb (Js.trim text) EmptyString
  | None => true
  end.

(** [if (term) searchQuery += term + ' '] *)
Definition addTerm (searchQuery : string) (term : option string) : string :=
  match term with
  | Some text => if Js.truthy term then (searchQuery ++ text ++ " ")%string else searchQuery
  | None => searchQuery
  end.

Definition searchQuery (query : Query) : string :=
  addTerm (addTerm (addTerm (addTerm EmptyString (q query)) (brand query)) (condition query))
    (quality query).

(** [bound && year < parseInt (bound)]; a comparison with [NaN] is false. *)
Definition below (year : Z) (bound : Param) : bool :=
  match bound with
  | Text (Some b) => year <? b
  | _ => false
  end.

Definition above (year : Z) (bound : Param) : bool :=
  match bound with
  | Text (Some b) => year >? b
  | _ => false
  end.

(** The callback of the year filter of [advancedSearch]. *)
Definition keepYear (query : Query) (item : Formatted.t) : bool :=
  let year := anio_desde (Formatted.item item) in
  if below year (yearFrom query) then false
  else if above year (yearTo query) then false
  else true.

(** [result.data.results = ...filter (...); result.data.total = ...length] *)
Definition applyYearFilter (query : Query) (result : Response SearchData.t)
  : Response SearchData.t :=
  let d := data result in
  let kept := List.filter (keepYear query) (SearchData.results d) in
  {| success := success result;
     data := {| SearchData.results := kept;
                SearchData.total := length kept;
                SearchData.page := SearchData.page d;
                SearchData.limit := SearchData.limit d;
                SearchData.totalPages := SearchData.totalPages d;
                SearchData.query := SearchData.query d;
                SearchData.searchTime := SearchData.searchTime d |} |}.

Section Handlers.
Context {matcher : Fuse.Matcher}.

Definition search (w : World) (query : Query) (startTime endTime : Z)
    (service : SearchService.t) : Reply (Response SearchData.t) * SearchService.t :=
  if blank (q query) then
    (Status400 "Search query is required" "/api/search?q=Hyundai&limit=10&page=1", service)
  else
    match SearchService.search w (Js.trim (Js.orDefault (q query) EmptyString)) (optionsOf query)
            startTime endTime service with
    | Return (result, service') => (Json result, service')
    | Throw e => (Next e, service)
    end.

Definition advancedSearch (w : World) (query : Query) (startTime endTime : Z)
    (service : SearchService.t) : Reply (Response SearchData.t) * SearchService.t :=
  if negb (Js.truthy (q query)) && negb (Js.truthy (brand query))
     && negb (Js.truthy (condition query)) && negb (Js.truthy (quality query)) then
    (Status400 "At least one search parameter is required (q, brand, condition, or quality)"
       "/api/search/advanced?q=Hyundai&condition=Nuevo&limit=10", service)
  else
    match SearchService.search w (Js.trim (searchQuery query)) (optionsOf query)
            startTime endTime service with
    | Return (result, service') =>
        if given (yearFrom query) || given (yearTo query)
        then (Json (applyYearFilter query result), service')
        else (Json result, service')
    | Throw e => (Next e, service)
    end.

(** The options of the handlers that read [limit], [page] and [threshold]. *)
Definition optionsFrom (limit page : Param) (threshold : option Q) : Options.t :=
  {| Options.limit := Js.orUndefinedZ (parseInt limit);
     Options.page := Some (Js.orZ (parseInt page) 1);
     Options.threshold := Js.orUndefinedQ threshold;
     Options.fields := None |}.

Definition searchByBrand (w : World) (query : Query) (startTime endTime : Z)
    (service : SearchService.t) : Reply (Response SearchData.t) * SearchService.t :=
  if blank (brand query) then
    (Status400 "Brand parameter is required"
       "/api/search/brand?brand=Hyundai&limit=10&page=1", service)
  else
    match SearchService.searchByBrand w (Js.trim (Js.orDefault (brand query) EmptyString))
            (optionsOf query) startTime endTime service with
    | Return (result, service') => (Json result, service')
    | Throw e => (Next e, service)
    end.

(** [const { description, limit, page, threshold } = req.query] *)
Definition searchByDescription (w : World) (description : option string) (limit page : Param)
    (threshold : option Q) (startTime endTime : Z) (service : SearchService.t)
  : Reply (Response SearchData.t) * SearchService.t :=
  if blank description then
    (Status400 "Description parameter is required"
       "/api/search/description?description=manguera&limit=10&page=1", service)
  else
    match SearchService.searchByDescription w
            (Js.trim (Js.orDefault description EmptyString))
            (optionsFrom limit page threshold) startTime endTime service with
    | Return (result, service') => (Json result, service')
    | Throw e => (Next e, service)
    end.

(** [const { q, year, limit, page } = req.query]; the options carry no
    threshold. *)
Definition searchWithYearRange (w : World) (q : option string) (year limit page : Param)
    (startTime endTime : Z) (service : SearchService.t)
  : Reply (Response YearData.t) * SearchService.t :=
  if blank q then
    (Status400 "Search query is required"
       "/api/search/year-range?q=Hyundai manguera&year=2016&limit=10", service)
  else
    match parseInt year with
    | None =>
        (Status400 "Valid year parameter is required"
           "/api/search/year-range?q=Hyundai manguera&year=2016&limit=10", service)
    | Some searchYear =>
        match SearchService.searchWithYearRange w (Js.trim (Js.orDefault q EmptyString))
                (Some searchYear) (optionsFrom limit page None) startTime endTime service with
        | Return (result, service') => (Json result, service')
        | Throw e => (Next e, service)
        end
    end.

End Handlers.

Definition getVehicleBrands (w : World) (service : SearchService.t)
  : Reply (Response BrandsData.t) * SearchService.t :=
  match SearchService.getVehicleBrands w service with
  | Return (result, service') => (Json result, service')
  | Throw e => (Next e, service)
  end.

Definition getSearchStats (w : World) (lastUpdated : string) (service : SearchService.t)
  : Reply (Response StatsData.t) * SearchService.t :=
  match SearchService.getSearchStats w lastUpdated service with
  | Return (result, service') => (Json result, service')
  | Throw e => (Next e, service)
  end.

(** What [getItemById] does with [res] and [next]. *)
Inductive ItemReply :=
| ItemStatus400 (message example : string)
| ItemStatus404 (body : ItemResponse.t)
| ItemJson (body : ItemResponse.t)
| ItemNext (e : Error).

(** [const { productId } = req.params] *)
Definition getItemById (w : World) (productId : option string) (service : SearchService.t)
  : ItemReply * SearchService.t :=
  if negb (Js.truthy productId) then
    (ItemStatus400 "Product ID is required" "/api/item/PRD-2022", service)
  else
    match SearchService.getItemById w (Js.orDefault productId EmptyString) service with
    | Return (result, service') =>
        if negb (ItemResponse.success result) then (ItemStatus404 result, service')
        else (ItemJson result, service')
    | Throw e => (ItemNext e, service)
    end.

End SearchController.

(** ** The error-handling middleware *)

Module ErrorHandler.

(** The fields of the error object that the middleware reads. *)
Record Err := {
  name : option string;
  code : option string;
  message : option string;
  stack : option string
}.

(** The JSON body; [None] is a key that is absent or [undefined]. *)
Module Body.
Record t := {
  success : bool;
  message : option string;
  error : option string;
  stack : option string;
  timestamp : string
}.
End Body.

(** [field === text] *)
Definition isText (field : option string) (text : string) : bool :=
  match field with
  | Some s => String.eqb s text
  | None => false
  end.

(** The first half of [errorHandler]: the status code and the message chosen
    for an error. *)
Definition classify (err : Err) : nat * option string :=
  if isText (name err) "ValidationError" then (400%nat, message err)
  else if isText (name err) "CastError" then (400%nat, Some "Invalid data format"%string)
  else if isText (code err) "ENOENT" then (404%nat, Some "Resource not found"%string)
  else if Js.truthy (message err) then (500%nat, message err)
  else (500%nat, Some "Internal Server Error"%string).

(** [nodeEnv] is [process.env.NODE_ENV]; [timestamp] is
    [new Date ().toISOString ()]. *)
Definition errorHandler (err : Err) (nodeEnv : option string) (timestamp : string)
  : nat * Body.t :=
  let (statusCode, msg) := classify err in
  if isText nodeEnv "development" then
    (statusCode,
     {| Body.success := false; Body.message := msg; Body.error := message err;
        Body.stack := stack err; Body.timestamp := timestamp |})
  else
    (statusCode,
     {| Body.success := false; Body.message := msg; Body.error := None;
        Body.stack := None; Body.timestamp := timestamp |}).

End ErrorHandler.

(** ** Reading outcomes *)

Definition valueOf {A S} (o : Outcome (A * S)) : option A :=
  match o with
  | Return (a, _) => Some a
  | Throw _ => None
  end.

Definition stateOf {A S} (o : Outcome (A * S)) : option S :=
  match o with
  | Return (_, s) => Some s
  | Throw _ => None
  end.

Definition bodyOf {B S} (r : SearchController.Reply B * S) : option B :=
  match fst r with
  | SearchController.Json body => Some body
  | _ => None
  end.

(** The service object as [initialize] leaves it. *)
Definition initialized (parsed : list Item) (e : Env) : SearchService.t :=
  {| SearchService.inventory := parsed;
     SearchService.fuse :=
       Some {| Fuse.docs := parsed; Fuse.options := SearchService.fuseOptions e |};
     SearchService.isInitialized := true |}.

(** The states the service object goes through: as constructed, or as
    [initialize] leaves it. *)
Inductive wf : SearchService.t -> Prop :=
| wf_constructor : wf SearchService.constructor
| wf_initialized (parsed : list Item) (e : Env) : wf (initialized parsed e).

(** The service can answer: it is initialised, or the data file loads. *)
Definition canServe (w : World) (this : SearchService.t) : Prop :=
  SearchService.isInitialized this = true \/ is_Some (dataFile w).

(** The state and the engine that answer a call: [this] once
    [ensureInitialized] has run, with its engine. *)
Definition serving (w : World) (this : SearchService.t)
  : option (SearchService.t * Fuse.t) :=
  match SearchService.ensureInitialized w this with
  | Return (_, this') =>
      match SearchService.fuse this' with
      | Some f => Some (this', f)
      | None => None
      end
  | Throw _ => None
  end.

(** [options] with another page, all else fixed. *)
Definition withPage (options : Options.t) (p : Z) : Options.t :=
  {| Options.limit := Options.limit options;
     Options.page := Some p;
     Options.threshold := Options.threshold options;
     Options.fields := Options.fields options |}.

(** The [results] of page [p], each page fetched by a call of its own. *)
Definition pageResults {matcher : Fuse.Matcher} (w : World) (query : string)
    (options : Options.t) (this : SearchService.t) (p : Z) : list Formatted.t :=
  match valueOf (SearchService.search w query (withPage options p) 0 0 this) with
  | Some r => SearchData.results (data r)
  | None => []
  end.

(** Pages 1 to [n], concatenated. *)
Definition firstPages {matcher : Fuse.Matcher} (w : World) (query : string)
    (options : Options.t) (this : SearchService.t) (n : nat) : list Formatted.t :=
  concat (map (fun k => pageResults w query options this (Z.of_nat (S k))) (seq 0 n)).

(** A search response with its timing erased. *)
Definition untimed (r : Response SearchData.t) : Response SearchData.t :=
  let d := data r in
  {| success := success r;
     data := {| SearchData.results := SearchData.results d;
                SearchData.total := SearchData.total d;
                SearchData.page := SearchData.page d;
                SearchData.limit := SearchData.limit d;
                SearchData.totalPages := SearchData.totalPages d;
                SearchData.query := SearchData.query d;
                SearchData.searchTime := EmptyString |} |}.

(** Ascending scores, as the insertion leaves them. *)
Definition ascending (l : list Fuse.Result) : Prop :=
  StronglySorted (fun a b => (Fuse.score a <= Fuse.score b)%Q) l.

(** [options] with another threshold, all else fixed. *)
Definition withThreshold (t : Q) (o : Fuse.Options) : Fuse.Options :=
  {| Fuse.keys := Fuse.keys o;
     Fuse.threshold := t;
     Fuse.includeScore := Fuse.includeScore o;
     Fuse.includeMatches := Fuse.includeMatches o;
     Fuse.minMatchCharLength := Fuse.minMatchCharLength o;
     Fuse.findAllMatches := Fuse.findAllMatches o;
     Fuse.location := Fuse.location o;
     Fuse.distance := Fuse.distance o;
     Fuse.useExtendedSearch := Fuse.useExtendedSearch o;
     Fuse.ignoreLocation := Fuse.ignoreLocation o;
     Fuse.ignoreFieldNorm := Fuse.ignoreFieldNorm o |}.

(** A request that carries [q], [brand], [limit], [page] and [threshold] and
    nothing else. *)
Definition request (q brand : option string) (limit page : SearchController.Param)
    (threshold : option Q) : SearchController.Query :=
  {| SearchController.q := q;
     SearchController.brand := brand;
     SearchController.condition := None;
     SearchController.quality := None;
     SearchController.yearFrom := SearchController.Missing;
     SearchController.yearTo := SearchController.Missing;
     SearchController.limit := limit;
     SearchController.page := page;
     SearchController.threshold := threshold |}.

(** The search terms of a request to [advancedSearch] that are given (not
    empty), in the order [q], [brand], [condition], [quality]. *)
Definition givenTerms (query : SearchController.Query) : list string :=
  omap (fun term => if Js.truthy term then term else None)
    [SearchController.q query; SearchController.brand query;
     SearchController.condition query; SearchController.quality query].

(** ** Sample data *)

Module Sample.

(** A matcher for the examples: cost 0 when the query occurs in the text,
    cost 1 otherwise; no spans. *)
Definition substring : Fuse.Matcher :=
  {| Fuse.cost := fun _ query text =>
       match String.index 0 query text with
       | Some _ => 0%Q
       | None => 1%Q
       end;
     Fuse.spans := fun _ _ => [] |}.

Definition A1 : Item :=
  {| producto_id := "A1"; marca_vehiculo := "Toyota"; descripcion_corta := "sensor oxigeno";
     condicion := "Nuevo"; calidad_repuesto := "Original";
     anio_desde := 2015; anio_hasta := 2020 |}.

Definition A2 : Item :=
  {| producto_id := "A2"; marca_vehiculo := "Toyota"; descripcion_corta := "manguera radiador";
     condicion := "Nuevo"; calidad_repuesto := "Original";
     anio_desde := 2010; anio_hasta := 2014 |}.

Definition A3 : Item :=
  {| producto_id := "A3"; marca_vehiculo := "Toyota"; descripcion_corta := "pastillas freno";
     condicion := "Usado"; calidad_repuesto := "Generico";
     anio_desde := 2000; anio_hasta := 2005 |}.

Definition noEnv : Env :=
  {| FUSE_THRESHOLD := None; DEFAULT_SEARCH_LIMIT := None; MAX_SEARCH_LIMIT := None |}.

Definition world : World := {| env := noEnv; dataFile := Some [A1; A2; A3] |}.

Definition engine : Fuse.t :=
  {| Fuse.docs := [A1; A2; A3]; Fuse.options := SearchService.fuseOptions noEnv |}.

Definition options (limit page : Z) : Options.t :=
  {| Options.limit := Some limit; Options.page := Some page;
     Options.threshold := None; Options.fields := None |}.

Definition noQuery : SearchController.Query :=
  {| SearchController.q := None; SearchController.brand := None;
     SearchController.condition := None; SearchController.quality := None;
     SearchController.yearFrom := SearchController.Missing;
     SearchController.yearTo := SearchController.Missing;
     SearchController.limit := SearchController.Missing;
     SearchController.page := SearchController.Missing;
     SearchController.threshold := None |}.

(** [GET /api/search/advanced?q=Toyota&yearTo=2012&limit=1&page=1] *)
Definition advancedQuery : SearchController.Query :=
  {| SearchController.q := Some "Toyota"%string; SearchController.brand := None;
     SearchController.condition := None; SearchController.quality := None;
     SearchController.yearFrom := SearchController.Missing;
     SearchController.yearTo := SearchController.Text (Some 2012);
     SearchController.limit := SearchController.Text (Some 1);
     SearchController.page := SearchController.Text (Some 1);
     SearchController.threshold := None |}.

(** [GET /api/search?q=Toyota&limit=-5] *)
Definition negativeLimitQuery : SearchController.Query :=
  {| SearchController.q := Some "Toyota"%string; SearchController.brand := None;
     SearchController.condition := None; SearchController.quality := None;
     SearchController.yearFrom := SearchController.Missing;
     SearchController.yearTo := SearchController.Missing;
     SearchController.limit := SearchController.Text (Some (-5));
     SearchController.page := SearchController.Missing;
     SearchController.threshold := None |}.

End Sample.

(** * Properties *)

(** ** Slicing and ceilings *)

Lemma relIndex_of_nat (len i : nat) : Js.relIndex len (Z.of_nat i) = Nat.min i len.
Proof.
  unfold Js.relIndex.
  destruct (Z.ltb_spec (Z.of_nat i) 0) as [Hneg | _]; [lia | ].
  lia.
Qed.

(** With natural bounds, [slice] is a window of the array. *)
Lemma slice_window {A} (arr : list A) (s n : nat) :
  Js.slice arr (Z.of_nat s) (Z.of_nat s + Z.of_nat n) = take n (drop s arr).
Proof.
  unfold Js.slice.
  replace (Z.of_nat s + Z.of_nat n) with (Z.of_nat (s + n)) by lia.
  rewrite !relIndex_of_nat.
  destruct (Nat.le_gt_cases (length arr) s) as [Hout | Hin].
  - rewrite Nat.min_r by lia.
    rewrite !drop_ge by lia.
    now rewrite !take_nil.
  - rewrite (Nat.min_l s) by lia.
    destruct (Nat.le_gt_cases (s + n) (length arr)) as [Hfit | Hcut].
    + rewrite Nat.min_l by lia. f_equal. lia.
    + rewrite Nat.min_r by lia.
      rewrite !take_ge; [reflexivity | | ]; rewrite length_drop; lia.
Qed.

(** A window of a prefix that covers it is the window of the whole. *)
Lemma take_drop_prefix {A} (l : list A) (s n c : nat) :
  (s + n <= c)%nat -> take n (drop s (take c l)) = take n (drop s l).
Proof.
  intros Hc.
  rewrite !take_drop_commute, take_take.
  do 2 f_equal. lia.
Qed.

Lemma ceilDiv_positive (n : nat) (d : Z) :
  0 < d -> Js.ceilDiv n d = Js.Finite ((Z.of_nat n + d - 1) / d).
Proof.
  intros Hd. unfold Js.ceilDiv.
  destruct (Z.eqb_spec d 0) as [-> | _]; [lia | ].
  f_equal.
  assert (Hq : Z.of_nat n + d - 1 = d * ((Z.of_nat n + d - 1) / d) + (Z.of_nat n + d - 1) mod d)
    by (apply Z.div_mod; lia).
  pose proof (Z.mod_pos_bound (Z.of_nat n + d - 1) d Hd) as Hr.
  set (q := (Z.of_nat n + d - 1) / d) in *.
  set (m := (Z.of_nat n + d - 1) mod d) in *.
  assert (Hdiv : (- Z.of_nat n) / d = - q).
  { symmetry. apply (Z.div_unique _ _ _ (d - 1 - m)); lia. }
  lia.
Qed.

(** ** The ranking *)

Section Ranking.
Context {matcher : Fuse.Matcher}.

Lemma insertByScore_perm (r : Fuse.Result) (l : list Fuse.Result) :
  Fuse.insertByScore r l ≡ₚ r :: l.
Proof.
  induction l as [ | x l IH]; simpl.
  - reflexivity.
  - destruct (Qle_bool (Fuse.score r) (Fuse.score x)).
    + reflexivity.
    + rewrite IH. apply perm_swap.
Qed.

Lemma sortByScore_perm (l : list Fuse.Result) : Fuse.sortByScore l ≡ₚ l.
Proof.
  induction l as [ | x l IH]; simpl.
  - reflexivity.
  - rewrite insertByScore_perm. now rewrite IH.
Qed.

(** Ranking neither adds nor drops a candidate. *)
Lemma rankAll_perm (f : Fuse.t) (query : string) :
  Fuse.rankAll f query ≡ₚ Fuse.candidates f query.
Proof. apply sortByScore_perm. Qed.

Lemma length_rankAll (f : Fuse.t) (query : string) :
  length (Fuse.rankAll f query) = length (Fuse.matching f query).
Proof.
  unfold Fuse.matching. rewrite length_map.
  apply Permutation_length, rankAll_perm.
Qed.

(** The engine returns the first [limit] ranked candidates. *)
Lemma length_search (f : Fuse.t) (query : string) (limit : Z) :
  length (Fuse.search f query limit)
  = Nat.min (Z.to_nat limit) (length (Fuse.matching f query)).
Proof.
  unfold Fuse.search. now rewrite length_take, length_rankAll.
Qed.

(** A candidate is a record of the store that the Field Scorer accepts. *)
Lemma elem_of_candidates (f : Fuse.t) (query : string) (r : Fuse.Result) :
  r ∈ Fuse.candidates f query ->
  Fuse.item r ∈ Fuse.docs f /\
  Fuse.scoreRecord (Fuse.options f) query (Fuse.item r) = Some r.
Proof.
  unfold Fuse.candidates.
  intros Hin. apply list_elem_of_omap in Hin as [it [Hp Hs]].
  assert (Hit : Fuse.item r = it).
  { unfold Fuse.scoreRecord in Hs.
    destruct (omap _ _); [discriminate | ]. now inversion Hs. }
  subst it. now split.
Qed.

Lemma insertByScore_ascending (r : Fuse.Result) (l : list Fuse.Result) :
  ascending l -> ascending (Fuse.insertByScore r l).
Proof.
  unfold ascending.
  induction l as [ | x l IH]; simpl; intros Hs.
  - constructor; [constructor | constructor].
  - inversion Hs as [ | ? ? Hl Hx]; subst.
    destruct (Qle_bool (Fuse.score r) (Fuse.score x)) eqn:Hle.
    + apply Qle_bool_iff in Hle.
      constructor; [exact Hs | ].
      constructor; [exact Hle | ].
      eapply Forall_impl; [exact Hx | ].
      intros y Hy. simpl in Hy. eapply Qle_trans; eauto.
    + assert (Hxr : (Fuse.score x <= Fuse.score r)%Q).
      { apply Qlt_le_weak, Qnot_le_lt. intros Hc.
        apply Qle_bool_iff in Hc. congruence. }
      constructor; [now apply IH | ].
      rewrite insertByScore_perm. now constructor.
Qed.

Lemma rankAll_ascending (f : Fuse.t) (query : string) :
  ascending (Fuse.rankAll f query).
Proof.
  unfold Fuse.rankAll, Fuse.sortByScore.
  induction (Fuse.candidates f query) as [ | x l IH]; simpl.
  - constructor.
  - now apply insertByScore_ascending.
Qed.

End Ranking.

(** ** The service object *)

Section Service.
Context {matcher : Fuse.Matcher}.

Lemma serving_wf (w : World) (this : SearchService.t) :
  wf this -> canServe w this ->
  exists parsed e,
    serving w this
    = Some (initialized parsed e,
            {| Fuse.docs := parsed; Fuse.options := SearchService.fuseOptions e |}).
Proof.
  intros Hwf Hcan. destruct Hwf as [ | parsed e].
  - destruct Hcan as [Hinit | [parsed Hfile]]; [discriminate | ].
    exists parsed, (env w).
    unfold serving, SearchService.ensureInitialized, SearchService.initialize.
    simpl. now rewrite Hfile.
  - now exists parsed, e.
Qed.

Lemma serving_canServe (w : World) (this this' : SearchService.t) (f : Fuse.t) :
  serving w this = Some (this', f) -> canServe w this.
Proof.
  unfold serving, canServe, SearchService.ensureInitialized, SearchService.initialize.
  destruct (SearchService.isInitialized this); [now left | ].
  destruct (dataFile w); [right; eauto | discriminate].
Qed.

(** Once served, the state is initialised and stays as it is. *)
Lemma serving_stable (w : World) (this this' : SearchService.t) (f : Fuse.t) :
  serving w this = Some (this', f) -> serving w this' = Some (this', f).
Proof.
  unfold serving, SearchService.ensureInitialized, SearchService.initialize.
  destruct (SearchService.isInitialized this) eqn:Hinit.
  - destruct (SearchService.fuse this) eqn:Hf; [ | discriminate].
    intros [= <- <-]. now rewrite Hinit, Hf.
  - destruct (dataFile w); [ | discriminate].
    simpl. now intros [= <- <-].
Qed.

(** What [search] returns once the service answers. *)
Lemma search_serving (w : World) (query : string) (options : Options.t) (t0 t1 : Z)
    (this this' : SearchService.t) (f : Fuse.t) :
  serving w this = Some (this', f) ->
  SearchService.search w query options t0 t1 this
  = let page := SearchService.pageOf options in
    let limit := SearchService.actualLimit w options in
    let results := Fuse.search f query (limit * page) in
    Return
      ({| success := true;
          data := {| SearchData.results :=
                       map SearchService.format
                         (Js.slice results ((page - 1) * limit) ((page - 1) * limit + limit));
                     SearchData.total := length results;
                     SearchData.page := page;
                     SearchData.limit := limit;
                     SearchData.totalPages := Js.ceilDiv (length results) limit;
                     SearchData.query := query;
                     SearchData.searchTime := Js.ms (t1 - t0) |} |},
       this').
Proof.
  unfold serving, SearchService.search, SearchService.bind, SearchService.theFuse.
  destruct (SearchService.ensureInitialized w this) as [[[] this1] | e]; [ | discriminate].
  destruct (SearchService.fuse this1); [ | discriminate].
  now intros [= <- <-].
Qed.

(** What [searchWithYearRange] returns once the service answers. *)
Lemma searchWithYearRange_serving (w : World) (query : string) (searchYear : option Z)
    (options : Options.t) (t0 t1 : Z) (this this' : SearchService.t) (f : Fuse.t) :
  serving w this = Some (this', f) ->
  SearchService.searchWithYearRange w query searchYear options t0 t1 this
  = let page := SearchService.pageOf options in
    let limit := SearchService.actualLimit w options in
    let filtered :=
      SearchService.filterByYear searchYear (SearchService.textResults f w query options) in
    Return
      ({| success := true;
          data := {| YearData.results :=
                       map SearchService.format
                         (Js.slice filtered ((page - 1) * limit) ((page - 1) * limit + limit));
                     YearData.total := length filtered;
                     YearData.page := page;
                     YearData.limit := limit;
                     YearData.totalPages := Js.ceilDiv (length filtered) limit;
                     YearData.query := query;
                     YearData.searchYear := Js.orUndefinedZ searchYear;
                     YearData.searchTime := Js.ms (t1 - t0);
                     YearData.yearFiltered := SearchService.yearGiven searchYear |} |},
       this').
Proof.
  unfold serving, SearchService.searchWithYearRange, SearchService.bind,
    SearchService.theFuse.
  destruct (SearchService.ensureInitialized w this) as [[[] this1] | e]; [ | discriminate].
  destruct (SearchService.fuse this1); [ | discriminate].
  now intros [= <- <-].
Qed.

(** Every method leaves the service object in one of its two shapes. *)
Lemma ensureInitialized_wf (w : World) (this this' : SearchService.t) (u : unit) :
  wf this -> SearchService.ensureInitialized w this = Return (u, this') -> wf this'.
Proof.
  intros Hwf. unfold SearchService.ensureInitialized, SearchService.initialize.
  destruct (SearchService.isInitialized this).
  - now intros [= <- <-].
  - destruct (dataFile w); [ | discriminate].
    intros [= <- <-]. apply wf_initialized.
Qed.

Lemma search_wf (w : World) (query : string) (options : Options.t) (t0 t1 : Z)
    (this this' : SearchService.t) (r : Response SearchData.t) :
  wf this -> SearchService.search w query options t0 t1 this = Return (r, this') -> wf this'.
Proof.
  intros Hwf. unfold SearchService.search, SearchService.bind, SearchService.theFuse.
  destruct (SearchService.ensureInitialized w this) as [[u this1] | e] eqn:Hens;
    [ | discriminate].
  destruct (SearchService.fuse this1); [ | discriminate].
  intros [= <- <-]. eapply ensureInitialized_wf; eauto.
Qed.

(** The effective limit never exceeds the configured maximum. *)
Lemma actualLimit_le_max (w : World) (options : Options.t) :
  SearchService.actualLimit w options <= SearchService.maxLimit w.
Proof. unfold SearchService.actualLimit. lia. Qed.

(** The maximum is 100 unless the environment sets another. *)
Lemma maxLimit_default (w : World) :
  MAX_SEARCH_LIMIT (env w) = None -> SearchService.maxLimit w = 100.
Proof. unfold SearchService.maxLimit. now intros ->. Qed.

(** With a positive limit and page, [total] is the match count cut at
    [limit * page], and [totalPages] is counted from that cut total. *)
Lemma search_total_min (w : World) (query : string) (options : Options.t) (t0 t1 : Z)
    (this this' : SearchService.t) (f : Fuse.t) :
  serving w this = Some (this', f) ->
  0 < SearchService.actualLimit w options -> 1 <= SearchService.pageOf options ->
  exists r,
    SearchService.search w query options t0 t1 this = Return (r, this') /\
    Z.of_nat (SearchData.total (data r))
    = Z.min (SearchService.actualLimit w options * SearchService.pageOf options)
        (Z.of_nat (length (Fuse.matching f query))) /\
    SearchData.totalPages (data r)
    = Js.Finite ((Z.of_nat (SearchData.total (data r)) + SearchService.actualLimit w options - 1)
                 / SearchService.actualLimit w options).
Proof.
  intros Hs Hlimit Hpage. rewrite (search_serving _ _ _ _ _ _ _ _ Hs). cbv zeta.
  eexists. split; [reflexivity | ]. simpl.
  split; [ | now apply ceilDiv_positive].
  rewrite length_search. nia.
Qed.

End Service.

(** ** Pagination of the plain search *)

Section Pagination.
Context {matcher : Fuse.Matcher}.

(** Page [k + 1] of the plain search is the [k]-th window of the ranking. *)
Lemma pageResults_window (w : World) (query : string) (options : Options.t)
    (this this' : SearchService.t) (f : Fuse.t) (k : nat) :
  serving w this = Some (this', f) ->
  0 < SearchService.actualLimit w options ->
  pageResults w query options this (Z.of_nat (S k))
  = map SearchService.format
      (take (Z.to_nat (SearchService.actualLimit w options))
         (drop (k * Z.to_nat (SearchService.actualLimit w options)) (Fuse.rankAll f query))).
Proof.
  intros Hs Hpos. unfold pageResults.
  rewrite (search_serving _ _ _ _ _ _ _ _ Hs). cbv zeta. simpl valueOf. cbv beta iota.
  simpl SearchData.results.
  change (SearchService.actualLimit w (withPage options (Z.of_nat (S k))))
    with (SearchService.actualLimit w options).
  change (SearchService.pageOf (withPage options (Z.of_nat (S k)))) with (Z.of_nat (S k)).
  set (L := SearchService.actualLimit w options) in *.
  set (l := Z.to_nat L).
  assert (HL : L = Z.of_nat l) by lia.
  f_equal.
  replace ((Z.of_nat (S k) - 1) * L) with (Z.of_nat (k * l)) by nia.
  replace (Z.of_nat (k * l) + L) with (Z.of_nat (k * l) + Z.of_nat l) by lia.
  rewrite slice_window.
  unfold Fuse.search.
  apply take_drop_prefix. nia.
Qed.

Lemma firstPages_take (w : World) (query : string) (options : Options.t)
    (this this' : SearchService.t) (f : Fuse.t) (n : nat) :
  serving w this = Some (this', f) ->
  0 < SearchService.actualLimit w options ->
  firstPages w query options this n
  = map SearchService.format
      (take (n * Z.to_nat (SearchService.actualLimit w options)) (Fuse.rankAll f query)).
Proof.
  intros Hs Hpos. unfold firstPages.
  induction n as [ | n IH].
  - reflexivity.
  - rewrite seq_S, map_app, concat_app, IH. simpl.
    rewrite (pageResults_window _ _ _ _ _ _ _ Hs Hpos), app_nil_r.
    rewrite <- map_app, take_take_drop.
    do 2 f_equal. lia.
Qed.

(** With a positive limit, the pages of the plain search up to the last
    non-empty one add up to the whole ranking, each candidate once, in order.
    The number of pages is counted from the match count, which no single
    response reports. *)
Lemma search_pages_roundtrip (w : World) (query : string) (options : Options.t)
    (this this' : SearchService.t) (f : Fuse.t) (n : nat) :
  serving w this = Some (this', f) ->
  0 < SearchService.actualLimit w options ->
  (Z.of_nat (length (Fuse.matching f query))
   <= Z.of_nat n * SearchService.actualLimit w options) ->
  firstPages w query options this n = map SearchService.format (Fuse.rankAll f query).
Proof.
  intros Hs Hpos Hn.
  rewrite (firstPages_take _ _ _ _ _ _ _ Hs Hpos).
  rewrite take_ge; [reflexivity | ].
  rewrite length_rankAll. nia.
Qed.

End Pagination.

(** ** What a search reports *)

(** C1, checked on the sample store.  [total] is the length of what the engine
    returned under the cap [limit * page], so it is not the number of records
    that match the query, and it changes with the page requested.  Three
    records match ["Toyota"]; with limit 1 the response for page 1 reports
    total 1 of 1 page, for page 2 total 2 of 2 pages, for page 3 total 3 of
    3 pages. *)
Theorem search_total_truncated :
  let report p :=
    option_map (fun r => (SearchData.total (data r), SearchData.totalPages (data r)))
      (valueOf (SearchService.search (matcher := Sample.substring) Sample.world "Toyota"
                  (Sample.options 1 p) 0 0 SearchService.constructor)) in
  length (Fuse.matching (matcher := Sample.substring) Sample.engine "Toyota") = 3%nat /\
  report 1 = Some (1%nat, Js.Finite 1) /\
  report 2 = Some (2%nat, Js.Finite 2) /\
  report 3 = Some (3%nat, Js.Finite 3).
Proof.
  cbv zeta. split; [reflexivity | ].
  repeat split; vm_compute; reflexivity.
Qed.

(** C2, checked on the sample store.  With the year filter on, the engine is
    first cut at [limit * page * 2] candidates and only then filtered, so a
    record in range that ranks behind enough records out of range is on no
    page.  With limit 1 and year 2003 the filtered ranking is [A3], yet every
    page is empty.  For the plain search, page 1 reports 1 page of 3 ranked
    candidates, so the pages up to the reported count are [A1] alone. *)
Theorem year_pages_lose_match :
  map Fuse.item
    (SearchService.filterByYear (Some 2003)
       (Fuse.rankAll (matcher := Sample.substring) Sample.engine "Toyota"))
  = [Sample.A3] /\
  (forall n : nat,
     option_map (fun r => YearData.results (data r))
       (valueOf (SearchService.searchWithYearRange (matcher := Sample.substring)
                   Sample.world "Toyota" (Some 2003) (Sample.options 1 (Z.of_nat (S n)))
                   0 0 SearchService.constructor))
     = Some []) /\
  option_map
    (fun r => (map (fun x => Formatted.item x) (SearchData.results (data r)),
               SearchData.totalPages (data r)))
    (valueOf (SearchService.search (matcher := Sample.substring) Sample.world "Toyota"
                (Sample.options 1 1) 0 0 SearchService.constructor))
  = Some ([Sample.A1], Js.Finite 1) /\
  map Fuse.item (Fuse.rankAll (matcher := Sample.substring) Sample.engine "Toyota")
  = [Sample.A1; Sample.A2; Sample.A3].
Proof.
  split; [vm_compute; reflexivity | ].
  split; [ | split; vm_compute; reflexivity].
  intros [ | n]; [vm_compute; reflexivity | ].
  assert (Hs : serving Sample.world SearchService.constructor
               = Some (initialized [Sample.A1; Sample.A2; Sample.A3] Sample.noEnv,
                       Sample.engine)) by reflexivity.
  rewrite (searchWithYearRange_serving _ _ _ _ _ _ _ _ _ Hs).
  cbv zeta. simpl valueOf. cbv beta iota. simpl option_map. f_equal.
  simpl YearData.results.
  change (SearchService.actualLimit Sample.world (Sample.options 1 (Z.of_nat (S (S n)))))
    with 1.
  change (SearchService.pageOf (Sample.options 1 (Z.of_nat (S (S n)))))
    with (Z.of_nat (S (S n))).
  unfold SearchService.textResults, Fuse.search.
  change (SearchService.actualLimit Sample.world (Sample.options 1 (Z.of_nat (S (S n)))))
    with 1.
  change (SearchService.pageOf (Sample.options 1 (Z.of_nat (S (S n)))))
    with (Z.of_nat (S (S n))).
  remember (Fuse.rankAll (matcher := Sample.substring) Sample.engine "Toyota") as R eqn:HR.
  assert (Hlen : length R = 3%nat) by (subst R; vm_compute; reflexivity).
  rewrite take_ge by lia.
  assert (Hkept : exists x, SearchService.filterByYear (Some 2003) R = [x])
    by (subst R; vm_compute; eauto).
  destruct Hkept as [x Hx].
  change (List.filter (SearchService.inYearRange 2003) R)
    with (SearchService.filterByYear (Some 2003) R).
  rewrite Hx.
  replace ((Z.of_nat (S (S n)) - 1) * 1) with (Z.of_nat (S n)) by lia.
  replace (Z.of_nat (S n) + 1) with (Z.of_nat (S n) + Z.of_nat 1) by lia.
  rewrite slice_window. simpl. now rewrite drop_nil.
Qed.

(** ** The year filter *)

Section YearFilter.
Context {matcher : Fuse.Matcher}.

Lemma inYearRange_spec (y : Z) (c : Fuse.Result) :
  SearchService.inYearRange y c = true
  <-> anio_desde (Fuse.item c) <= y <= anio_hasta (Fuse.item c).
Proof.
  unfold SearchService.inYearRange. rewrite andb_true_iff. lia.
Qed.

Lemma elem_of_slice {A} (arr : list A) (s e : Z) (x : A) :
  x ∈ Js.slice arr s e -> x ∈ arr.
Proof.
  unfold Js.slice. intros Hx.
  apply (subseteq_drop (Js.relIndex (length arr) s)).
  eapply subseteq_take, Hx.
Qed.

(** An active filter keeps exactly the candidates in range. *)
Lemma filterByYear_spec (y : Z) (found : list Fuse.Result) (c : Fuse.Result) :
  y <> 0 ->
  c ∈ SearchService.filterByYear (Some y) found
  <-> c ∈ found /\ anio_desde (Fuse.item c) <= y <= anio_hasta (Fuse.item c).
Proof.
  intros Hy. unfold SearchService.filterByYear, SearchService.yearGiven.
  destruct (Z.eqb_spec y 0) as [ | _]; [contradiction | ]. simpl.
  rewrite !list_elem_of_In, filter_In, inYearRange_spec. reflexivity.
Qed.

(** C3. When the year filter is active (a target year that is a number other
    than 0, which the code reads as no year), [searchWithYearRange] answers,
    every item it returns has [anio_desde <= year <= anio_hasta], the filter
    keeps only candidates in range, and every candidate that the engine found
    and the filter dropped is out of range. *)
Theorem year_filter_correct (w : World) (query : string) (y : Z) (options : Options.t)
    (t0 t1 : Z) (this this' : SearchService.t) (f : Fuse.t) :
  serving w this = Some (this', f) ->
  y <> 0 ->
  let found := SearchService.textResults f w query options in
  let kept := SearchService.filterByYear (Some y) found in
  exists r,
    SearchService.searchWithYearRange w query (Some y) options t0 t1 this = Return (r, this') /\
    YearData.yearFiltered (data r) = true /\
    YearData.total (data r) = length kept /\
    (forall x, x ∈ YearData.results (data r) ->
       anio_desde (Formatted.item x) <= y <= anio_hasta (Formatted.item x)) /\
    (forall c, c ∈ kept ->
       c ∈ found /\ anio_desde (Fuse.item c) <= y <= anio_hasta (Fuse.item c)) /\
    (forall c, c ∈ found -> c ∉ kept ->
       ~ (anio_desde (Fuse.item c) <= y <= anio_hasta (Fuse.item c))).
Proof.
  intros Hs Hy found kept.
  rewrite (searchWithYearRange_serving _ _ _ _ _ _ _ _ _ Hs). cbv zeta.
  eexists. split; [reflexivity | ]. simpl.
  split.
  { destruct (Z.eqb_spec y 0); [contradiction | reflexivity]. }
  split; [reflexivity | ].
  split; [ | split].
  - intros x Hx.
    apply list_elem_of_In, in_map_iff in Hx as [c [<- Hc]].
    apply list_elem_of_In, elem_of_slice in Hc.
    apply (filterByYear_spec y _ c Hy) in Hc. simpl. tauto.
  - intros c Hc. now apply filterByYear_spec.
  - intros c Hfound Hdropped Hrange.
    apply Hdropped. apply filterByYear_spec; auto.
Qed.

End YearFilter.

(** The year filter at work on the sample store: year 2012 keeps A2 alone. *)
Lemma year_filter_correct_witness :
  serving Sample.world SearchService.constructor
  = Some (initialized [Sample.A1; Sample.A2; Sample.A3] Sample.noEnv, Sample.engine) /\
  2012 <> 0 /\
  exists r,
    SearchService.searchWithYearRange (matcher := Sample.substring) Sample.world "Toyota"
      (Some 2012) (Sample.options 10 1) 0 0 SearchService.constructor
    = Return (r, initialized [Sample.A1; Sample.A2; Sample.A3] Sample.noEnv) /\
    YearData.yearFiltered (data r) = true /\
    (forall x, x ∈ YearData.results (data r) ->
       anio_desde (Formatted.item x) <= 2012 <= anio_hasta (Formatted.item x)).
Proof.
  split; [reflexivity | ]. split; [lia | ].
  destruct (year_filter_correct (matcher := Sample.substring) Sample.world "Toyota" 2012
              (Sample.options 10 1) 0 0 SearchService.constructor
              (initialized [Sample.A1; Sample.A2; Sample.A3] Sample.noEnv) Sample.engine
              eq_refl ltac:(lia))
    as [r [Hrun [Hflag [_ [Hin _]]]]].
  exists r. split; [exact Hrun | ]. split; [exact Hflag | exact Hin].
Defined.

(** C4, checked on the sample store.  [advancedSearch] filters the page that
    [search] already cut, and overwrites [total] with the size of what is
    left.  For [q=Toyota&yearTo=2012&limit=1&page=1] the page is [A1], which the
    filter drops: the reply has no results and total 0 (totalPages still 1),
    although A2 and A3 match the query and the year bound. *)
Theorem advancedSearch_filters_page :
  option_map
    (fun r => (map (fun x => Formatted.item x) (SearchData.results (data r)),
               SearchData.total (data r),
               SearchData.totalPages (data r)))
    (bodyOf (SearchController.advancedSearch (matcher := Sample.substring) Sample.world
               Sample.advancedQuery 0 0 SearchService.constructor))
  = Some ([], 0%nat, Js.Finite 1) /\
  map Fuse.item
    (List.filter
       (fun c => SearchController.keepYear Sample.advancedQuery (SearchService.format c))
       (Fuse.rankAll (matcher := Sample.substring) Sample.engine "Toyota"))
  = [Sample.A2; Sample.A3].
Proof.
  split; vm_compute; reflexivity.
Qed.

(** ** The field-specific searches *)

(** C5. [searchByBrand] and [searchByDescription] return what [search] returns
    on the same query and options: [search] reads only [limit] and [page]
    from its options, so the [fields] entry has no effect. *)
Theorem field_searches_are_search (matcher : Fuse.Matcher) (w : World) (query : string)
    (options : Options.t) (t0 t1 : Z) (this : SearchService.t) :
  SearchService.searchByBrand w query options t0 t1 this
  = SearchService.search w query options t0 t1 this /\
  SearchService.searchByDescription w query options t0 t1 this
  = SearchService.search w query options t0 t1 this.
Proof.
  unfold SearchService.searchByBrand, SearchService.searchByDescription,
    SearchService.search, SearchService.withFields.
  split; reflexivity.
Qed.

(** [search] ignores the [threshold] and [fields] entries of its options. *)
Lemma search_reads_limit_and_page (matcher : Fuse.Matcher) (w : World) (query : string)
    (o1 o2 : Options.t) (t0 t1 : Z) (this : SearchService.t) :
  Options.limit o1 = Options.limit o2 -> Options.page o1 = Options.page o2 ->
  SearchService.search w query o1 t0 t1 this = SearchService.search w query o2 t0 t1 this.
Proof.
  intros Hl Hp.
  unfold SearchService.search, SearchService.actualLimit, SearchService.pageOf.
  now rewrite Hl, Hp.
Qed.

(** ** The limit *)

(** C6, checked on the sample store.  A limit below 1 is neither raised to 1
    nor refused: [GET /api/search?q=Toyota&limit=-5] is answered with
    [success: true] and [limit: -5], and a direct call with limit 0 reports
    [totalPages: NaN]. *)
Theorem nonpositive_limit_passes :
  option_map (fun r => (success r, SearchData.limit (data r)))
    (bodyOf (SearchController.search (matcher := Sample.substring) Sample.world
               Sample.negativeLimitQuery 0 0 SearchService.constructor))
  = Some (true, -5) /\
  option_map
    (fun r => (success r, SearchData.limit (data r), SearchData.total (data r),
               SearchData.totalPages (data r)))
    (valueOf (SearchService.search (matcher := Sample.substring) Sample.world "Toyota"
                (Sample.options 0 1) 0 0 SearchService.constructor))
  = Some (true, 0, 0%nat, Js.NaN).
Proof.
  split; vm_compute; reflexivity.
Qed.

(** ** The empty query *)

Section EmptyQuery.
Context {matcher : Fuse.Matcher}.

Lemma omap_all_None {A B} (g : A -> option B) (l : list A) :
  (forall x, g x = None) -> omap g l = [].
Proof.
  intros Hg. induction l as [ | x l IH]; simpl; [reflexivity | ].
  now rewrite Hg.
Qed.

(** A query shorter than the minimum match length has no candidate. *)
Lemma candidates_short_query (f : Fuse.t) (query : string) :
  (String.length query < Fuse.minMatchCharLength (Fuse.options f))%nat ->
  Fuse.candidates f query = [].
Proof.
  intros Hshort. unfold Fuse.candidates.
  apply omap_all_None. intros it.
  unfold Fuse.scoreRecord.
  rewrite omap_all_None; [reflexivity | ].
  intros k. unfold Fuse.matchKey, Fuse.fuzzyMatch.
  destruct (Fuse.getField it (Fuse.name k)); [ | reflexivity].
  destruct (Nat.ltb_spec (String.length query) (Fuse.minMatchCharLength (Fuse.options f)));
    [reflexivity | lia].
Qed.

(** C7. On every record store and under every environment, [search] and
    [searchWithYearRange] called with the empty query answer (they do not
    throw) with no results and total 0. *)
Theorem empty_query_no_candidates (w : World) (options : Options.t) (t0 t1 : Z)
    (this : SearchService.t) :
  wf this -> canServe w this ->
  exists r this',
    SearchService.search w EmptyString options t0 t1 this = Return (r, this') /\
    success r = true /\
    SearchData.results (data r) = [] /\
    SearchData.total (data r) = 0%nat /\
    forall searchYear, exists ry,
      SearchService.searchWithYearRange w EmptyString searchYear options t0 t1 this
      = Return (ry, this') /\
      success ry = true /\
      YearData.results (data ry) = [] /\
      YearData.total (data ry) = 0%nat.
Proof.
  intros Hwf Hcan.
  destruct (serving_wf w this Hwf Hcan) as [parsed [e Hs]].
  set (f := {| Fuse.docs := parsed; Fuse.options := SearchService.fuseOptions e |}) in *.
  assert (Hnone : Fuse.rankAll f EmptyString = []).
  { unfold Fuse.rankAll. rewrite candidates_short_query; [reflexivity | simpl; lia]. }
  eexists. eexists.
  rewrite (search_serving _ _ _ _ _ _ _ _ Hs). cbv zeta.
  split; [reflexivity | ]. simpl.
  unfold Fuse.search. rewrite Hnone, take_nil.
  split; [reflexivity | ].
  split; [unfold Js.slice; simpl; now rewrite drop_nil, take_nil | ].
  split; [reflexivity | ].
  intros searchYear. eexists.
  rewrite (searchWithYearRange_serving _ _ _ _ _ _ _ _ _ Hs). cbv zeta.
  split; [reflexivity | ]. simpl.
  unfold SearchService.textResults, Fuse.search. rewrite Hnone, take_nil.
  assert (Hfilter : SearchService.filterByYear searchYear [] = []).
  { unfold SearchService.filterByYear. destruct searchYear as [y | ]; [ | reflexivity].
    now destruct (SearchService.yearGiven (Some y)). }
  rewrite Hfilter.
  split; [reflexivity | ].
  split; [unfold Js.slice; simpl; now rewrite drop_nil, take_nil | reflexivity].
Qed.

End EmptyQuery.

(** The empty query on the sample store. *)
Lemma empty_query_no_candidates_witness :
  wf SearchService.constructor /\
  canServe Sample.world SearchService.constructor /\
  exists r this',
    SearchService.search (matcher := Sample.substring) Sample.world EmptyString
      (Sample.options 10 1) 0 0 SearchService.constructor = Return (r, this') /\
    SearchData.results (data r) = [] /\
    SearchData.total (data r) = 0%nat.
Proof.
  assert (Hcan : canServe Sample.world SearchService.constructor)
    by (right; simpl; eauto).
  split; [apply wf_constructor | ]. split; [exact Hcan | ].
  destruct (empty_query_no_candidates (matcher := Sample.substring) Sample.world
              (Sample.options 10 1) 0 0 SearchService.constructor wf_constructor Hcan)
    as [r [this' [Hrun [_ [Hres [Htot _]]]]]].
  exists r, this'. auto.
Defined.

(** ** Lookup by product id *)

(** C8. [getItemById] answers whenever the service can serve.  When some
    record of the store has the requested [producto_id] it returns
    [{ success: true, data }] with such a record of the store; when none has, it returns the value
    [{ success: false, message: 'Item not found' }] and does not throw. *)
Theorem getItemById_lookup (w : World) (productId : string) (this : SearchService.t) :
  canServe w this ->
  exists r this',
    SearchService.getItemById w productId this = Return (r, this') /\
    SearchService.ensureInitialized w this = Return (tt, this') /\
    ((exists it, it ∈ SearchService.inventory this' /\ producto_id it = productId) ->
     exists it,
       r = {| ItemResponse.success := true;
              ItemResponse.data := Some it;
              ItemResponse.message := None |} /\
       it ∈ SearchService.inventory this' /\ producto_id it = productId) /\
    ((forall it, it ∈ SearchService.inventory this' -> producto_id it <> productId) ->
     r = {| ItemResponse.success := false;
            ItemResponse.data := None;
            ItemResponse.message := Some "Item not found"%string |}).
Proof.
  intros Hcan.
  assert (Hens : exists this', SearchService.ensureInitialized w this = Return (tt, this')).
  { unfold SearchService.ensureInitialized, SearchService.initialize.
    destruct Hcan as [-> | [parsed ->]]; [eauto | ].
    destruct (SearchService.isInitialized this); eauto. }
  destruct Hens as [this' Hens].
  unfold SearchService.getItemById, SearchService.bind, SearchService.get.
  rewrite Hens.
  destruct (List.find _ (SearchService.inventory this')) as [it | ] eqn:Hfind.
  - apply find_some in Hfind as [Hin Heq]. apply String.eqb_eq in Heq.
    eexists. eexists. split; [reflexivity | ]. split; [reflexivity | ].
    split.
    + intros _. exists it. rewrite list_elem_of_In. auto.
    + intros Hnone. exfalso. apply (Hnone it); [now apply list_elem_of_In | exact Heq].
  - eexists. eexists. split; [reflexivity | ]. split; [reflexivity | ].
    split.
    + intros [it [Hin Heq]]. exfalso.
      apply list_elem_of_In in Hin.
      pose proof (find_none _ _ Hfind it Hin) as Hne. simpl in Hne.
      apply String.eqb_neq in Hne. contradiction.
    + reflexivity.
Qed.

(** Lookup of a product of the sample store. *)
Lemma getItemById_lookup_witness :
  canServe Sample.world SearchService.constructor /\
  exists r this',
    SearchService.getItemById Sample.world "A2" SearchService.constructor
    = Return (r, this') /\
    SearchService.ensureInitialized Sample.world SearchService.constructor
    = Return (tt, this').
Proof.
  assert (Hcan : canServe Sample.world SearchService.constructor)
    by (right; simpl; eauto).
  split; [exact Hcan | ].
  destruct (getItemById_lookup Sample.world "A2" SearchService.constructor Hcan)
    as [r [this' [Hrun [Hens _]]]].
  exists r, this'. auto.
Defined.

(** The two scenarios of the specification on the sample store. *)
Lemma getItemById_scenarios :
  valueOf (SearchService.getItemById Sample.world "A1" SearchService.constructor)
  = Some {| ItemResponse.success := true;
            ItemResponse.data := Some Sample.A1;
            ItemResponse.message := None |} /\
  valueOf (SearchService.getItemById Sample.world "ZZZ" SearchService.constructor)
  = Some {| ItemResponse.success := false;
            ItemResponse.data := None;
            ItemResponse.message := Some "Item not found"%string |}.
Proof. split; reflexivity. Qed.

(** ** The threshold *)

Section Threshold.
Context {matcher : Fuse.Matcher}.

Lemma fuzzyMatch_threshold_mono (o : Fuse.Options) (t1 t2 : Q) (query text : string)
    (m : Q * list (nat * nat)) :
  (t1 <= t2)%Q ->
  Fuse.fuzzyMatch (withThreshold t1 o) query text = Some m ->
  Fuse.fuzzyMatch (withThreshold t2 o) query text = Some m.
Proof.
  intros Hle. unfold Fuse.fuzzyMatch. simpl.
  destruct (String.length query <? Fuse.minMatchCharLength o)%nat; [discriminate | ].
  destruct (Qle_bool (Fuse.cost (Fuse.distance o) query text) t1) eqn:H1; [ | discriminate].
  intros Hm.
  assert (H2 : Qle_bool (Fuse.cost (Fuse.distance o) query text) t2 = true).
  { apply Qle_bool_iff. apply Qle_bool_iff in H1. eapply Qle_trans; eauto. }
  now rewrite H2.
Qed.

Lemma matchKey_threshold_mono (o : Fuse.Options) (t1 t2 : Q) (query : string) (it : Item)
    (k : Fuse.Key) (h : Fuse.Key * Q * Fuse.FieldMatch) :
  (t1 <= t2)%Q ->
  Fuse.matchKey (withThreshold t1 o) query it k = Some h ->
  Fuse.matchKey (withThreshold t2 o) query it k = Some h.
Proof.
  intros Hle. unfold Fuse.matchKey.
  destruct (Fuse.getField it (Fuse.name k)) as [text | ]; [ | discriminate].
  destruct (Fuse.fuzzyMatch (withThreshold t1 o) query text) as [m | ] eqn:Hm;
    [ | discriminate].
  now rewrite (fuzzyMatch_threshold_mono _ _ _ _ _ _ Hle Hm).
Qed.

(** A record that the Field Scorer accepts stays accepted under a higher
    threshold. *)
Lemma scoreRecord_threshold_mono (o : Fuse.Options) (t1 t2 : Q) (query : string)
    (it : Item) (r : Fuse.Result) :
  (t1 <= t2)%Q ->
  Fuse.scoreRecord (withThreshold t1 o) query it = Some r ->
  exists r', Fuse.scoreRecord (withThreshold t2 o) query it = Some r' /\ Fuse.item r' = it.
Proof.
  intros Hle. unfold Fuse.scoreRecord. simpl.
  destruct (omap (Fuse.matchKey (withThreshold t1 o) query it) (Fuse.keys o))
    as [ | h hits] eqn:H1; [discriminate | ].
  intros _.
  assert (Hh : h ∈ omap (Fuse.matchKey (withThreshold t2 o) query it) (Fuse.keys o)).
  { assert (Hin : h ∈ omap (Fuse.matchKey (withThreshold t1 o) query it) (Fuse.keys o))
      by (rewrite H1; left).
    apply list_elem_of_omap in Hin as [k [Hk Hm]].
    apply list_elem_of_omap. exists k. split; [exact Hk | ].
    eapply matchKey_threshold_mono; eauto. }
  destruct (omap (Fuse.matchKey (withThreshold t2 o) query it) (Fuse.keys o))
    as [ | h' hits'].
  - now apply elem_of_nil in Hh.
  - eexists. split; reflexivity.
Qed.

(** C9. For a fixed record store and query, and options that differ in the
    threshold alone, every record that matches under threshold [t1] matches
    under any threshold [t2] with [t1 <= t2]. *)
Theorem threshold_monotone (store : list Item) (o : Fuse.Options) (query : string)
    (t1 t2 : Q) (it : Item) :
  (t1 <= t2)%Q ->
  it ∈ Fuse.matching {| Fuse.docs := store; Fuse.options := withThreshold t1 o |} query ->
  it ∈ Fuse.matching {| Fuse.docs := store; Fuse.options := withThreshold t2 o |} query.
Proof.
  intros Hle. unfold Fuse.matching, Fuse.candidates. simpl.
  intros Hin.
  apply list_elem_of_In, in_map_iff in Hin as [r [Hitem Hr]].
  apply list_elem_of_In, list_elem_of_omap in Hr as [it' [Hp Hs]].
  destruct (scoreRecord_threshold_mono _ _ _ _ _ _ Hle Hs) as [r' [Hs' Hitem']].
  assert (Heq : it' = it).
  { unfold Fuse.scoreRecord in Hs. destruct (omap _ _); [discriminate | ].
    inversion Hs; subst r. simpl in Hitem. exact Hitem. }
  apply list_elem_of_In, in_map_iff. exists r'. split; [congruence | ].
  apply list_elem_of_In, list_elem_of_omap. exists it'. split; [exact Hp | exact Hs'].
Qed.

(** The threshold handed to the engine is never 0: [initialize] reads a
    [FUSE_THRESHOLD] of 0 as unset and falls back to 0.3. *)
Lemma fuseOptions_threshold_zero (e : Env) :
  FUSE_THRESHOLD e = Some 0%Q ->
  Fuse.threshold (SearchService.fuseOptions e) = (3 # 10)%Q.
Proof. intros He. simpl. now rewrite He. Qed.

(** The options that [initialize] builds differ by the threshold alone. *)
Lemma fuseOptions_withThreshold (e : Env) :
  SearchService.fuseOptions e
  = withThreshold (Js.orQ (FUSE_THRESHOLD e) (3 # 10)) (SearchService.fuseOptions e).
Proof. reflexivity. Qed.

End Threshold.

(** Monotonicity on the sample store: A1 matches at 0.1, hence at 0.3. *)
Lemma threshold_monotone_witness :
  ((1 # 10) <= (3 # 10))%Q /\
  Sample.A1 ∈ Fuse.matching (matcher := Sample.substring)
    {| Fuse.docs := [Sample.A1; Sample.A2; Sample.A3];
       Fuse.options := withThreshold (1 # 10) (SearchService.fuseOptions Sample.noEnv) |}
    "Toyota" /\
  Sample.A1 ∈ Fuse.matching (matcher := Sample.substring)
    {| Fuse.docs := [Sample.A1; Sample.A2; Sample.A3];
       Fuse.options := withThreshold (3 # 10) (SearchService.fuseOptions Sample.noEnv) |}
    "Toyota".
Proof.
  assert (Hle : ((1 # 10) <= (3 # 10))%Q) by (unfold Qle; simpl; lia).
  assert (Hlow : Sample.A1 ∈ Fuse.matching (matcher := Sample.substring)
            {| Fuse.docs := [Sample.A1; Sample.A2; Sample.A3];
               Fuse.options :=
                 withThreshold (1 # 10) (SearchService.fuseOptions Sample.noEnv) |}
            "Toyota") by (vm_compute; left).
  split; [exact Hle | ]. split; [exact Hlow | ].
  exact (threshold_monotone (matcher := Sample.substring) [Sample.A1; Sample.A2; Sample.A3]
           (SearchService.fuseOptions Sample.noEnv) "Toyota" (1 # 10) (3 # 10) Sample.A1
           Hle Hlow).
Defined.

(** ** Repeated calls *)

(** C10 as stated fails: two calls on the same store, query and options
    differ in [searchTime] when the clock readings differ. *)
Lemma search_time_differs :
  exists r1 r2 this1,
    SearchService.search (matcher := Sample.substring) Sample.world "Toyota"
      (Sample.options 10 1) 1000 1001 SearchService.constructor = Return (r1, this1) /\
    SearchService.search (matcher := Sample.substring) Sample.world "Toyota"
      (Sample.options 10 1) 2000 2003 this1 = Return (r2, this1) /\
    r1 <> r2.
Proof.
  eexists. eexists. eexists.
  split; [vm_compute; reflexivity | ].
  split; [vm_compute; reflexivity | ].
  intros Heq.
  apply (f_equal (fun r => SearchData.searchTime (data r))) in Heq.
  vm_compute in Heq. discriminate.
Qed.

(** C10, amended.  Two calls of [search] in a row on the same world, query
    and options agree on every field but [searchTime], whatever the clock
    reads, and leave the service in the same state; if the first throws, so
    does the second, with the same error. *)
Theorem search_repeatable_up_to_time (matcher : Fuse.Matcher) (w : World) (query : string)
    (options : Options.t) (t0 t1 t0' t1' : Z) (this : SearchService.t) :
  match SearchService.search w query options t0 t1 this with
  | Return (r1, this1) =>
      exists r2,
        SearchService.search w query options t0' t1' this1 = Return (r2, this1) /\
        untimed r1 = untimed r2
  | Throw e => SearchService.search w query options t0' t1' this = Throw e
  end.
Proof.
  destruct (serving w this) as [[this1 f] | ] eqn:Hs.
  - rewrite (search_serving _ _ _ _ _ _ _ _ Hs). cbv zeta beta iota.
    rewrite (search_serving _ _ _ _ _ _ _ _ (serving_stable _ _ _ _ Hs)). cbv zeta.
    eexists. split; reflexivity.
  - revert Hs.
    unfold serving, SearchService.search, SearchService.bind, SearchService.theFuse.
    destruct (SearchService.ensureInitialized w this) as [[[] this1] | e];
      [ | reflexivity].
    destruct (SearchService.fuse this1); [discriminate | reflexivity].
Qed.

(** * Further properties of the service and its handlers *)

(** ** The shape of a page *)

Lemma length_slice_le_length {A} (arr : list A) (s e : Z) :
  (length (Js.slice arr s e) <= length arr)%nat.
Proof.
  unfold Js.slice. rewrite length_take, length_drop. lia.
Qed.

(** A window of positive width [n] holds at most [n] elements, wherever it
    starts, also when its bounds are negative and count from the end. *)
Lemma length_slice_window {A} (arr : list A) (s n : Z) :
  0 < n -> Z.of_nat (length (Js.slice arr s (s + n))) <= n.
Proof.
  intros Hn. unfold Js.slice, Js.relIndex.
  rewrite length_take, length_drop.
  destruct (Z.ltb_spec s 0), (Z.ltb_spec (s + n) 0); lia.
Qed.

(** The ceiling that [totalPages] holds for a positive limit. *)
Lemma ceilDiv_least (t : nat) (d : Z) :
  0 < d ->
  exists n, Js.ceilDiv t d = Js.Finite n /\ Z.of_nat t <= n * d < Z.of_nat t + d.
Proof.
  intros Hd. rewrite (ceilDiv_positive _ _ Hd).
  eexists. split; [reflexivity | ].
  pose proof (Z.div_mod (Z.of_nat t + d - 1) d ltac:(lia)) as Hq.
  pose proof (Z.mod_pos_bound (Z.of_nat t + d - 1) d Hd) as Hr.
  nia.
Qed.

Section PageShape.
Context {matcher : Fuse.Matcher}.

(** With a positive effective limit, a page of [search] or of
    [searchWithYearRange] never holds more than [limit] items, for every page
    number (also 0 and negative ones), and the reported limit is at most the
    configured maximum. *)
Theorem page_size_bounded (w : World) (query : string) (options : Options.t) (t0 t1 : Z)
    (this this' : SearchService.t) (f : Fuse.t) :
  serving w this = Some (this', f) ->
  0 < SearchService.actualLimit w options ->
  (exists r,
     SearchService.search w query options t0 t1 this = Return (r, this') /\
     Z.of_nat (length (SearchData.results (data r))) <= SearchData.limit (data r) /\
     SearchData.limit (data r) <= SearchService.maxLimit w) /\
  (forall searchYear, exists r,
     SearchService.searchWithYearRange w query searchYear options t0 t1 this
     = Return (r, this') /\
     Z.of_nat (length (YearData.results (data r))) <= YearData.limit (data r) /\
     YearData.limit (data r) <= SearchService.maxLimit w).
Proof.
  intros Hs Hpos. split.
  - rewrite (search_serving _ _ _ _ _ _ _ _ Hs). cbv zeta.
    eexists. split; [reflexivity | ]. simpl.
    rewrite length_map.
    split; [now apply length_slice_window | apply actualLimit_le_max].
  - intros searchYear.
    rewrite (searchWithYearRange_serving _ _ _ _ _ _ _ _ _ Hs). cbv zeta.
    eexists. split; [reflexivity | ]. simpl.
    rewrite length_map.
    split; [now apply length_slice_window | apply actualLimit_le_max].
Qed.

(** Whatever the limit and the page, a page never holds more items than the
    [total] reported with it. *)
Theorem page_within_total (w : World) (query : string) (options : Options.t) (t0 t1 : Z)
    (this this' : SearchService.t) (f : Fuse.t) :
  serving w this = Some (this', f) ->
  (exists r,
     SearchService.search w query options t0 t1 this = Return (r, this') /\
     (length (SearchData.results (data r)) <= SearchData.total (data r))%nat) /\
  (forall searchYear, exists r,
     SearchService.searchWithYearRange w query searchYear options t0 t1 this
     = Return (r, this') /\
     (length (YearData.results (data r)) <= YearData.total (data r))%nat).
Proof.
  intros Hs. split.
  - rewrite (search_serving _ _ _ _ _ _ _ _ Hs). cbv zeta.
    eexists. split; [reflexivity | ]. simpl.
    rewrite length_map. apply length_slice_le_length.
  - intros searchYear.
    rewrite (searchWithYearRange_serving _ _ _ _ _ _ _ _ _ Hs). cbv zeta.
    eexists. split; [reflexivity | ]. simpl.
    rewrite length_map. apply length_slice_le_length.
Qed.

(** With a positive effective limit, [totalPages] is a number [n], and it is
    the least number of pages of [limit] items that hold [total] items:
    [total <= n * limit < total + limit]. *)
Theorem totalPages_least_cover (w : World) (query : string) (options : Options.t)
    (t0 t1 : Z) (this this' : SearchService.t) (f : Fuse.t) :
  serving w this = Some (this', f) ->
  0 < SearchService.actualLimit w options ->
  (exists r n,
     SearchService.search w query options t0 t1 this = Return (r, this') /\
     SearchData.totalPages (data r) = Js.Finite n /\
     Z.of_nat (SearchData.total (data r)) <= n * SearchData.limit (data r)
       < Z.of_nat (SearchData.total (data r)) + SearchData.limit (data r)) /\
  (forall searchYear, exists r n,
     SearchService.searchWithYearRange w query searchYear options t0 t1 this
     = Return (r, this') /\
     YearData.totalPages (data r) = Js.Finite n /\
     Z.of_nat (YearData.total (data r)) <= n * YearData.limit (data r)
       < Z.of_nat (YearData.total (data r)) + YearData.limit (data r)).
Proof.
  intros Hs Hpos. split.
  - rewrite (search_serving _ _ _ _ _ _ _ _ Hs). cbv zeta.
    destruct (ceilDiv_least
                (length (Fuse.search f query
                           (SearchService.actualLimit w options
                            * SearchService.pageOf options)))
                _ Hpos) as [n [Hn Hbound]].
    eexists. exists n. split; [reflexivity | ]. simpl. now split.
  - intros searchYear.
    rewrite (searchWithYearRange_serving _ _ _ _ _ _ _ _ _ Hs). cbv zeta.
    destruct (ceilDiv_least
                (length (SearchService.filterByYear searchYear
                           (SearchService.textResults f w query options)))
                _ Hpos) as [n [Hn Hbound]].
    eexists. exists n. split; [reflexivity | ]. simpl. now split.
Qed.

End PageShape.

Lemma sample_serving :
  serving Sample.world SearchService.constructor
  = Some (initialized [Sample.A1; Sample.A2; Sample.A3] Sample.noEnv, Sample.engine).
Proof. reflexivity. Qed.

Lemma page_size_bounded_witness :
  0 < SearchService.actualLimit Sample.world (Sample.options 2 1) /\
  exists r,
    SearchService.search (matcher := Sample.substring) Sample.world "Toyota"
      (Sample.options 2 1) 0 0 SearchService.constructor
    = Return (r, initialized [Sample.A1; Sample.A2; Sample.A3] Sample.noEnv) /\
    Z.of_nat (length (SearchData.results (data r))) <= SearchData.limit (data r).
Proof.
  assert (Hpos : 0 < SearchService.actualLimit Sample.world (Sample.options 2 1))
    by (vm_compute; reflexivity).
  split; [exact Hpos | ].
  destruct (page_size_bounded (matcher := Sample.substring) Sample.world "Toyota"
              (Sample.options 2 1) 0 0 _ _ _ sample_serving Hpos)
    as [[r [Hrun [Hlen _]]] _].
  exists r. auto.
Defined.

Lemma page_within_total_witness :
  exists r,
    SearchService.search (matcher := Sample.substring) Sample.world "Toyota"
      (Sample.options 2 1) 0 0 SearchService.constructor
    = Return (r, initialized [Sample.A1; Sample.A2; Sample.A3] Sample.noEnv) /\
    (length (SearchData.results (data r)) <= SearchData.total (data r))%nat.
Proof.
  destruct (page_within_total (matcher := Sample.substring) Sample.world "Toyota"
              (Sample.options 2 1) 0 0 _ _ _ sample_serving)
    as [[r [Hrun Hlen]] _].
  exists r. auto.
Defined.

Lemma totalPages_least_cover_witness :
  0 < SearchService.actualLimit Sample.world (Sample.options 2 1) /\
  exists r n,
    SearchService.search (matcher := Sample.substring) Sample.world "Toyota"
      (Sample.options 2 1) 0 0 SearchService.constructor
    = Return (r, initialized [Sample.A1; Sample.A2; Sample.A3] Sample.noEnv) /\
    SearchData.totalPages (data r) = Js.Finite n.
Proof.
  assert (Hpos : 0 < SearchService.actualLimit Sample.world (Sample.options 2 1))
    by (vm_compute; reflexivity).
  split; [exact Hpos | ].
  destruct (totalPages_least_cover (matcher := Sample.substring) Sample.world "Toyota"
              (Sample.options 2 1) 0 0 _ _ _ sample_serving Hpos)
    as [[r [n [Hrun [Hn _]]]] _].
  exists r, n. auto.
Defined.

(** ** Totals and pages under the engine's cap *)

Lemma slice_take_window {A} (arr : list A) (s n c : nat) :
  (s + n <= c)%nat ->
  Js.slice (take c arr) (Z.of_nat s) (Z.of_nat s + Z.of_nat n) = take n (drop s arr).
Proof.
  intros Hc. rewrite slice_window. now apply take_drop_prefix.
Qed.

Section Capped.
Context {matcher : Fuse.Matcher}.

(** With a positive limit and a page of at least 1, [search] reports as
    [total] the number of matching records cut at [limit * page] (the engine
    is asked for that many results and [total] is the length of its answer),
    and a [totalPages] that never exceeds the requested page. *)
Theorem search_total_capped (w : World) (query : string) (options : Options.t) (t0 t1 : Z)
    (this this' : SearchService.t) (f : Fuse.t) :
  serving w this = Some (this', f) ->
  0 < SearchService.actualLimit w options ->
  1 <= SearchService.pageOf options ->
  exists r n,
    SearchService.search w query options t0 t1 this = Return (r, this') /\
    Z.of_nat (SearchData.total (data r))
    = Z.min (SearchData.limit (data r) * SearchData.page (data r))
        (Z.of_nat (length (Fuse.matching f query))) /\
    SearchData.totalPages (data r) = Js.Finite n /\
    n <= SearchData.page (data r).
Proof.
  intros Hs Hlimit Hpage.
  rewrite (search_serving _ _ _ _ _ _ _ _ Hs). cbv zeta.
  set (L := SearchService.actualLimit w options) in *.
  set (p := SearchService.pageOf options) in *.
  destruct (ceilDiv_least (length (Fuse.search f query (L * p))) L Hlimit)
    as [n [Hn Hbound]].
  eexists. exists n. split; [reflexivity | ]. simpl.
  assert (Htotal : Z.of_nat (length (Fuse.search f query (L * p)))
                   = Z.min (L * p) (Z.of_nat (length (Fuse.matching f query)))).
  { rewrite length_search. nia. }
  split; [exact Htotal | ]. split; [exact Hn | ]. nia.
Qed.

(** With no year given (a missing year, [NaN], or the year 0), a positive
    limit and a page of at least 1, [searchWithYearRange] returns the same
    page of items as [search], and says that no year filter was applied. *)
Theorem year_search_without_year (w : World) (query : string) (searchYear : option Z)
    (options : Options.t) (t0 t1 : Z) (this this' : SearchService.t) (f : Fuse.t) :
  serving w this = Some (this', f) ->
  0 < SearchService.actualLimit w options ->
  1 <= SearchService.pageOf options ->
  SearchService.yearGiven searchYear = false ->
  exists r ry,
    SearchService.search w query options t0 t1 this = Return (r, this') /\
    SearchService.searchWithYearRange w query searchYear options t0 t1 this
    = Return (ry, this') /\
    YearData.results (data ry) = SearchData.results (data r) /\
    YearData.yearFiltered (data ry) = false /\
    YearData.searchYear (data ry) = None.
Proof.
  intros Hs Hlimit Hpage Hyear.
  rewrite (search_serving _ _ _ _ _ _ _ _ Hs),
    (searchWithYearRange_serving _ _ _ _ _ _ _ _ _ Hs). cbv zeta.
  eexists. eexists. split; [reflexivity | ]. split; [reflexivity | ]. simpl.
  assert (Hkeep : forall l, SearchService.filterByYear searchYear l = l).
  { intros l. unfold SearchService.filterByYear.
    destruct searchYear as [y | ]; [now rewrite Hyear | reflexivity]. }
  rewrite Hkeep. unfold SearchService.textResults, Fuse.search.
  set (L := SearchService.actualLimit w options) in *.
  set (p := SearchService.pageOf options) in *.
  set (l := Z.to_nat L). set (k := Z.to_nat (p - 1)).
  replace ((p - 1) * L) with (Z.of_nat (k * l)) by nia.
  replace (Z.of_nat (k * l) + L) with (Z.of_nat (k * l) + Z.of_nat l) by lia.
  rewrite !slice_take_window by nia.
  split; [reflexivity | ]. split; [exact Hyear | ].
  destruct searchYear as [y | ]; [ | reflexivity].
  simpl in Hyear. simpl. now destruct (y =? 0).
Qed.

End Capped.

Lemma search_total_capped_witness :
  0 < SearchService.actualLimit Sample.world (Sample.options 2 1) /\
  1 <= SearchService.pageOf (Sample.options 2 1) /\
  exists r n,
    SearchService.search (matcher := Sample.substring) Sample.world "Toyota"
      (Sample.options 2 1) 0 0 SearchService.constructor
    = Return (r, initialized [Sample.A1; Sample.A2; Sample.A3] Sample.noEnv) /\
    SearchData.totalPages (data r) = Js.Finite n /\
    n <= SearchData.page (data r).
Proof.
  assert (Hpos : 0 < SearchService.actualLimit Sample.world (Sample.options 2 1))
    by (vm_compute; reflexivity).
  assert (Hpage : 1 <= SearchService.pageOf (Sample.options 2 1))
    by (vm_compute; discriminate).
  split; [exact Hpos | ]. split; [exact Hpage | ].
  destruct (search_total_capped (matcher := Sample.substring) Sample.world "Toyota"
              (Sample.options 2 1) 0 0 _ _ _ sample_serving Hpos Hpage)
    as [r [n [Hrun [_ [Hn Hle]]]]].
  exists r, n. auto.
Defined.

Lemma year_search_without_year_witness :
  SearchService.yearGiven (Some 0) = false /\
  exists r ry,
    SearchService.search (matcher := Sample.substring) Sample.world "Toyota"
      (Sample.options 2 1) 0 0 SearchService.constructor
    = Return (r, initialized [Sample.A1; Sample.A2; Sample.A3] Sample.noEnv) /\
    SearchService.searchWithYearRange (matcher := Sample.substring) Sample.world "Toyota"
      (Some 0) (Sample.options 2 1) 0 0 SearchService.constructor
    = Return (ry, initialized [Sample.A1; Sample.A2; Sample.A3] Sample.noEnv) /\
    YearData.results (data ry) = SearchData.results (data r).
Proof.
  split; [reflexivity | ].
  destruct (year_search_without_year (matcher := Sample.substring) Sample.world "Toyota"
              (Some 0) (Sample.options 2 1) 0 0 _ _ _ sample_serving
              ltac:(vm_compute; reflexivity) ltac:(vm_compute; discriminate) eq_refl)
    as [r [ry [Hrun [Hyear [Hsame _]]]]].
  exists r, ry. auto.
Defined.

(** Two pages of two items cover the three matches of the sample store. *)
Lemma search_pages_roundtrip_witness :
  0 < SearchService.actualLimit Sample.world (Sample.options 2 1) /\
  (Z.of_nat (length (Fuse.matching (matcher := Sample.substring) Sample.engine "Toyota"))
   <= Z.of_nat 2 * SearchService.actualLimit Sample.world (Sample.options 2 1)) /\
  firstPages (matcher := Sample.substring) Sample.world "Toyota" (Sample.options 2 1)
    SearchService.constructor 2
  = map SearchService.format
      (Fuse.rankAll (matcher := Sample.substring) Sample.engine "Toyota").
Proof.
  assert (Hpos : 0 < SearchService.actualLimit Sample.world (Sample.options 2 1))
    by (vm_compute; reflexivity).
  assert (Hcover :
            Z.of_nat (length (Fuse.matching (matcher := Sample.substring)
                                Sample.engine "Toyota"))
            <= Z.of_nat 2 * SearchService.actualLimit Sample.world (Sample.options 2 1))
    by (vm_compute; discriminate).
  split; [exact Hpos | ]. split; [exact Hcover | ].
  exact (search_pages_roundtrip (matcher := Sample.substring) Sample.world "Toyota"
           (Sample.options 2 1) SearchService.constructor _ Sample.engine 2
           sample_serving Hpos Hcover).
Defined.

(** ** Lazy initialisation *)

Lemma ensureInitialized_initialised (w : World) (this : SearchService.t) :
  SearchService.isInitialized this = true ->
  SearchService.ensureInitialized w this = Return (tt, this).
Proof. intros Hinit. unfold SearchService.ensureInitialized. now rewrite Hinit. Qed.

Lemma ensureInitialized_loads (w : World) (this : SearchService.t) (parsed : list Item) :
  SearchService.isInitialized this = false -> dataFile w = Some parsed ->
  SearchService.ensureInitialized w this = Return (tt, initialized parsed (env w)).
Proof.
  intros Hinit Hfile. unfold SearchService.ensureInitialized, SearchService.initialize.
  now rewrite Hinit, Hfile.
Qed.

Lemma ensureInitialized_fails (w : World) (this : SearchService.t) :
  SearchService.isInitialized this = false -> dataFile w = None ->
  SearchService.ensureInitialized w this = Throw LoadError.
Proof.
  intros Hinit Hfile. unfold SearchService.ensureInitialized, SearchService.initialize.
  now rewrite Hinit, Hfile.
Qed.

(** What the three methods that do not search return once the service
    answers. *)
Lemma getItemById_ensured (w : World) (productId : string)
    (this this' : SearchService.t) :
  SearchService.ensureInitialized w this = Return (tt, this') ->
  SearchService.getItemById w productId this
  = Return
      (match List.find (fun item => String.eqb (producto_id item) productId)
               (SearchService.inventory this') with
       | None => {| ItemResponse.success := false;
                    ItemResponse.data := None;
                    ItemResponse.message := Some "Item not found"%string |}
       | Some item => {| ItemResponse.success := true;
                         ItemResponse.data := Some item;
                         ItemResponse.message := None |}
       end, this').
Proof.
  intros Hens. unfold SearchService.getItemById, SearchService.bind, SearchService.get.
  rewrite Hens. now destruct (List.find _ _).
Qed.

Lemma getVehicleBrands_ensured (w : World) (this this' : SearchService.t) :
  SearchService.ensureInitialized w this = Return (tt, this') ->
  SearchService.getVehicleBrands w this
  = let brands := Js.distinct (map marca_vehiculo (SearchService.inventory this')) in
    Return ({| success := true;
               data := {| BrandsData.brands := Js.sort brands;
                          BrandsData.total := length brands |} |}, this').
Proof.
  intros Hens.
  unfold SearchService.getVehicleBrands, SearchService.bind, SearchService.get.
  now rewrite Hens.
Qed.

Lemma getSearchStats_ensured (w : World) (lastUpdated : string)
    (this this' : SearchService.t) :
  SearchService.ensureInitialized w this = Return (tt, this') ->
  SearchService.getSearchStats w lastUpdated this
  = let inventory := SearchService.inventory this' in
    let brands := Js.distinct (map marca_vehiculo inventory) in
    Return ({| success := true;
               data := {| StatsData.totalItems := length inventory;
                          StatsData.uniqueBrands := length brands;
                          StatsData.brands := Js.sort brands;
                          StatsData.conditions :=
                            Js.sort (Js.distinct (map condicion inventory));
                          StatsData.qualities :=
                            Js.sort (Js.distinct (map calidad_repuesto inventory));
                          StatsData.lastUpdated := lastUpdated |} |}, this').
Proof.
  intros Hens.
  unfold SearchService.getSearchStats, SearchService.bind, SearchService.get.
  now rewrite Hens.
Qed.

Section Lifecycle.
Context {matcher : Fuse.Matcher}.

(** On a service that is not initialised, the first call of any method loads
    the data file: when the file loads, the method answers and leaves the
    service initialised with the file's records and an engine built on them
    with the options of the current environment. *)
Theorem first_call_initialises (w : World) (parsed : list Item) (query : string)
    (searchYear : option Z) (options : Options.t) (productId lastUpdated : string)
    (t0 t1 : Z) (this : SearchService.t) :
  SearchService.isInitialized this = false ->
  dataFile w = Some parsed ->
  let loaded := initialized parsed (env w) in
  stateOf (SearchService.search w query options t0 t1 this) = Some loaded /\
  stateOf (SearchService.searchWithYearRange w query searchYear options t0 t1 this)
  = Some loaded /\
  stateOf (SearchService.getItemById w productId this) = Some loaded /\
  stateOf (SearchService.getVehicleBrands w this) = Some loaded /\
  stateOf (SearchService.getSearchStats w lastUpdated this) = Some loaded /\
  SearchService.inventory loaded = parsed.
Proof.
  intros Hinit Hfile loaded.
  pose proof (ensureInitialized_loads w this parsed Hinit Hfile) as Hens.
  assert (Hs : serving w this
               = Some (loaded, {| Fuse.docs := parsed;
                                  Fuse.options := SearchService.fuseOptions (env w) |})).
  { unfold serving. now rewrite Hens. }
  rewrite (search_serving _ _ _ _ _ _ _ _ Hs),
    (searchWithYearRange_serving _ _ _ _ _ _ _ _ _ Hs),
    (getItemById_ensured _ _ _ _ Hens), (getVehicleBrands_ensured _ _ _ Hens),
    (getSearchStats_ensured _ _ _ _ Hens).
  repeat split.
Qed.

(** An initialised service answers every method without throwing and without
    changing: the record store and the engine stay as they were loaded. *)
Theorem initialised_state_kept (w : World) (query : string) (searchYear : option Z)
    (options : Options.t) (productId lastUpdated : string) (t0 t1 : Z)
    (this : SearchService.t) :
  wf this ->
  SearchService.isInitialized this = true ->
  stateOf (SearchService.search w query options t0 t1 this) = Some this /\
  stateOf (SearchService.searchWithYearRange w query searchYear options t0 t1 this)
  = Some this /\
  stateOf (SearchService.getItemById w productId this) = Some this /\
  stateOf (SearchService.getVehicleBrands w this) = Some this /\
  stateOf (SearchService.getSearchStats w lastUpdated this) = Some this.
Proof.
  intros Hwf Hinit.
  pose proof (ensureInitialized_initialised w this Hinit) as Hens.
  destruct (serving_wf w this Hwf (or_introl Hinit)) as [parsed [e Hs]].
  assert (Hsame : initialized parsed e = this).
  { unfold serving in Hs. rewrite Hens in Hs.
    destruct (SearchService.fuse this); congruence. }
  rewrite Hsame in Hs.
  rewrite (search_serving _ _ _ _ _ _ _ _ Hs),
    (searchWithYearRange_serving _ _ _ _ _ _ _ _ _ Hs),
    (getItemById_ensured _ _ _ _ Hens), (getVehicleBrands_ensured _ _ _ Hens),
    (getSearchStats_ensured _ _ _ _ Hens).
  repeat split.
Qed.

(** An initialised service reads neither the data file nor [FUSE_THRESHOLD]
    again: two worlds that agree on the two limit variables get the same
    answer from every method, whatever their data files and thresholds. *)
Theorem initialised_service_ignores_file (w1 w2 : World) (query : string)
    (searchYear : option Z) (options : Options.t) (productId lastUpdated : string)
    (t0 t1 : Z) (this : SearchService.t) :
  SearchService.isInitialized this = true ->
  DEFAULT_SEARCH_LIMIT (env w1) = DEFAULT_SEARCH_LIMIT (env w2) ->
  MAX_SEARCH_LIMIT (env w1) = MAX_SEARCH_LIMIT (env w2) ->
  SearchService.search w1 query options t0 t1 this
  = SearchService.search w2 query options t0 t1 this /\
  SearchService.searchWithYearRange w1 query searchYear options t0 t1 this
  = SearchService.searchWithYearRange w2 query searchYear options t0 t1 this /\
  SearchService.getItemById w1 productId this = SearchService.getItemById w2 productId this /\
  SearchService.getVehicleBrands w1 this = SearchService.getVehicleBrands w2 this /\
  SearchService.getSearchStats w1 lastUpdated this
  = SearchService.getSearchStats w2 lastUpdated this.
Proof.
  intros Hinit Hdefault Hmax.
  assert (Hlimit : SearchService.actualLimit w1 options = SearchService.actualLimit w2 options).
  { unfold SearchService.actualLimit, SearchService.defaultLimit, SearchService.maxLimit.
    now rewrite Hdefault, Hmax. }
  pose proof (ensureInitialized_initialised w1 this Hinit) as H1.
  pose proof (ensureInitialized_initialised w2 this Hinit) as H2.
  rewrite (getItemById_ensured _ _ _ _ H1), (getItemById_ensured _ _ _ _ H2),
    (getVehicleBrands_ensured _ _ _ H1), (getVehicleBrands_ensured _ _ _ H2),
    (getSearchStats_ensured _ _ _ _ H1), (getSearchStats_ensured _ _ _ _ H2).
  unfold SearchService.search, SearchService.searchWithYearRange, SearchService.bind,
    SearchService.theFuse, SearchService.textResults.
  rewrite H1, H2, Hlimit.
  repeat split.
Qed.

(** When the data file cannot be read or parsed, every method of a service
    that is not initialised throws the load error; none answers with an
    empty result or a not-found value. *)
Theorem load_failure_throws (w : World) (query : string) (searchYear : option Z)
    (options : Options.t) (productId lastUpdated : string) (t0 t1 : Z)
    (this : SearchService.t) :
  SearchService.isInitialized this = false ->
  dataFile w = None ->
  SearchService.search w query options t0 t1 this = Throw LoadError /\
  SearchService.searchWithYearRange w query searchYear options t0 t1 this
  = Throw LoadError /\
  SearchService.getItemById w productId this = Throw LoadError /\
  SearchService.getVehicleBrands w this = Throw LoadError /\
  SearchService.getSearchStats w lastUpdated this = Throw LoadError.
Proof.
  intros Hinit Hfile.
  pose proof (ensureInitialized_fails w this Hinit Hfile) as Hens.
  unfold SearchService.search, SearchService.searchWithYearRange,
    SearchService.getItemById, SearchService.getVehicleBrands,
    SearchService.getSearchStats, SearchService.bind.
  rewrite Hens. repeat split.
Qed.

End Lifecycle.

Lemma first_call_initialises_witness :
  SearchService.isInitialized SearchService.constructor = false /\
  dataFile Sample.world = Some [Sample.A1; Sample.A2; Sample.A3] /\
  stateOf (SearchService.getItemById Sample.world "A1" SearchService.constructor)
  = Some (initialized [Sample.A1; Sample.A2; Sample.A3] (env Sample.world)).
Proof.
  split; [reflexivity | ]. split; [reflexivity | ].
  exact (proj1 (proj2 (proj2
    (first_call_initialises (matcher := Sample.substring) Sample.world
       [Sample.A1; Sample.A2; Sample.A3] "Toyota" None (Sample.options 2 1) "A1" "now"
       0 0 SearchService.constructor eq_refl eq_refl)))).
Defined.

Lemma initialised_state_kept_witness :
  wf (initialized [Sample.A1] Sample.noEnv) /\
  SearchService.isInitialized (initialized [Sample.A1] Sample.noEnv) = true /\
  stateOf (SearchService.search (matcher := Sample.substring) Sample.world "Toyota"
             (Sample.options 2 1) 0 0 (initialized [Sample.A1] Sample.noEnv))
  = Some (initialized [Sample.A1] Sample.noEnv).
Proof.
  split; [apply wf_initialized | ]. split; [reflexivity | ].
  exact (proj1
    (initialised_state_kept (matcher := Sample.substring) Sample.world "Toyota" None
       (Sample.options 2 1) "A1" "now" 0 0 (initialized [Sample.A1] Sample.noEnv)
       (wf_initialized [Sample.A1] Sample.noEnv) eq_refl)).
Defined.

Lemma initialised_service_ignores_file_witness :
  SearchService.isInitialized (initialized [Sample.A1] Sample.noEnv) = true /\
  SearchService.getItemById Sample.world "A1" (initialized [Sample.A1] Sample.noEnv)
  = SearchService.getItemById {| env := Sample.noEnv; dataFile := None |} "A1"
      (initialized [Sample.A1] Sample.noEnv).
Proof.
  split; [reflexivity | ].
  exact (proj1 (proj2 (proj2
    (initialised_service_ignores_file (matcher := Sample.substring) Sample.world
       {| env := Sample.noEnv; dataFile := None |} "Toyota" None (Sample.options 2 1)
       "A1" "now" 0 0 (initialized [Sample.A1] Sample.noEnv) eq_refl eq_refl eq_refl)))).
Defined.

Lemma load_failure_throws_witness :
  SearchService.isInitialized SearchService.constructor = false /\
  dataFile {| env := Sample.noEnv; dataFile := None |} = None /\
  SearchService.getItemById {| env := Sample.noEnv; dataFile := None |} "A1"
    SearchService.constructor
  = Throw LoadError.
Proof.
  split; [reflexivity | ]. split; [reflexivity | ].
  exact (proj1 (proj2 (proj2
    (load_failure_throws (matcher := Sample.substring)
       {| env := Sample.noEnv; dataFile := None |} "Toyota" None (Sample.options 2 1)
       "A1" "now" 0 0 SearchService.constructor eq_refl eq_refl)))).
Defined.

(** ** Distinct values, sorted *)

Lemma existsb_eqb_elem_of (x : string) (seen : list string) :
  existsb (String.eqb x) seen = true <-> x ∈ seen.
Proof.
  rewrite existsb_exists, list_elem_of_In. split.
  - intros [y [Hin Heq]]. apply String.eqb_eq in Heq. now subst.
  - intros Hin. exists x. split; [exact Hin | apply String.eqb_refl].
Qed.

(** The set keeps a string iff it occurs and was not seen before. *)
Lemma elem_of_distinctFrom (seen arr : list string) (x : string) :
  x ∈ Js.distinctFrom seen arr <-> x ∈ arr /\ x ∉ seen.
Proof.
  revert seen. induction arr as [ | y arr IH]; intros seen; simpl.
  - rewrite !elem_of_nil. tauto.
  - destruct (existsb (String.eqb y) seen) eqn:Hseen.
    + apply existsb_eqb_elem_of in Hseen.
      rewrite IH, elem_of_cons. split; [tauto | ].
      intros [[-> | Hin] Hnot]; [contradiction | tauto].
    + assert (Hy : y ∉ seen).
      { intros Hin. apply existsb_eqb_elem_of in Hin. congruence. }
      rewrite !elem_of_cons, IH, elem_of_cons. split.
      * intros [-> | [Hin Hnot]]; [tauto | tauto].
      * intros [[-> | Hin] Hnot]; [now left | ].
        destruct (String.eqb_spec x y) as [-> | Hne]; [now left | right; tauto].
Qed.

Lemma NoDup_distinctFrom (seen arr : list string) : NoDup (Js.distinctFrom seen arr).
Proof.
  revert seen. induction arr as [ | y arr IH]; intros seen; simpl.
  - constructor.
  - destruct (existsb (String.eqb y) seen); [apply IH | ].
    constructor; [ | apply IH].
    rewrite elem_of_distinctFrom, elem_of_cons. tauto.
Qed.

Lemma length_distinctFrom (seen arr : list string) :
  (length (Js.distinctFrom seen arr) <= length arr)%nat.
Proof.
  revert seen. induction arr as [ | y arr IH]; intros seen; simpl; [lia | ].
  destruct (existsb (String.eqb y) seen); simpl.
  - specialize (IH seen). lia.
  - specialize (IH (y :: seen)). lia.
Qed.

Lemma ascii_compare_lt_trans (a b c : ascii) :
  (a ?= b)%char = Lt -> (b ?= c)%char = Lt -> (a ?= c)%char = Lt.
Proof.
  unfold Ascii.compare. rewrite !N.compare_lt_iff. lia.
Qed.

Lemma ascii_compare_refl (a : ascii) : (a ?= a)%char = Eq.
Proof. unfold Ascii.compare. apply N.compare_refl. Qed.

Lemma string_compare_lt_trans (a b c : string) :
  (a ?= b)%string = Lt -> (b ?= c)%string = Lt -> (a ?= c)%string = Lt.
Proof.
  revert b c.
  induction a as [ | x a IH]; intros [ | y b] [ | z c]; simpl; try congruence.
  destruct (x ?= y)%char eqn:Hxy; try congruence;
    destruct (y ?= z)%char eqn:Hyz; try congruence.
  - apply Ascii.compare_eq_iff in Hxy, Hyz. subst.
    rewrite ascii_compare_refl. apply IH.
  - apply Ascii.compare_eq_iff in Hxy. subst. now rewrite Hyz.
  - apply Ascii.compare_eq_iff in Hyz. subst. now rewrite Hxy.
  - now rewrite (ascii_compare_lt_trans _ _ _ Hxy Hyz).
Qed.

Lemma string_compare_refl (a : string) : (a ?= a)%string = Eq.
Proof.
  induction a as [ | x a IH]; simpl; [reflexivity | ].
  now rewrite ascii_compare_refl.
Qed.

Lemma string_leb_trans (a b c : string) :
  String.leb a b = true -> String.leb b c = true -> String.leb a c = true.
Proof.
  unfold String.leb.
  destruct (a ?= b)%string eqn:Hab; try discriminate;
    destruct (b ?= c)%string eqn:Hbc; try discriminate; intros _ _.
  - apply String.compare_eq_iff in Hab, Hbc. subst. now rewrite string_compare_refl.
  - apply String.compare_eq_iff in Hab. subst. now rewrite Hbc.
  - apply String.compare_eq_iff in Hbc. subst. now rewrite Hab.
  - now rewrite (string_compare_lt_trans _ _ _ Hab Hbc).
Qed.

Lemma insertString_perm (s : string) (l : list string) : Js.insertString s l ≡ₚ s :: l.
Proof.
  induction l as [ | x l IH]; simpl; [reflexivity | ].
  destruct (String.leb s x); [reflexivity | ].
  rewrite IH. apply perm_swap.
Qed.

(** Sorting rearranges the array and nothing else. *)
Lemma sort_perm (l : list string) : Js.sort l ≡ₚ l.
Proof.
  induction l as [ | x l IH]; simpl; [reflexivity | ].
  rewrite insertString_perm. now rewrite IH.
Qed.

Lemma insertString_sorted (s : string) (l : list string) :
  StronglySorted (fun a b => String.leb a b = true) l ->
  StronglySorted (fun a b => String.leb a b = true) (Js.insertString s l).
Proof.
  induction l as [ | x l IH]; simpl; intros Hs.
  - repeat constructor.
  - inversion Hs as [ | ? ? Hl Hx]; subst.
    destruct (String.leb s x) eqn:Hle.
    + constructor; [exact Hs | ].
      constructor; [exact Hle | ].
      eapply Forall_impl; [exact Hx | ].
      intros y Hy. simpl in Hy. eapply string_leb_trans; eauto.
    + constructor; [now apply IH | ].
      rewrite insertString_perm. constructor; [ | exact Hx].
      destruct (String.leb_total s x) as [Hsx | Hxs]; [congruence | exact Hxs].
Qed.

Lemma sort_sorted (l : list string) :
  StronglySorted (fun a b => String.leb a b = true) (Js.sort l).
Proof.
  induction l as [ | x l IH]; simpl; [constructor | ].
  now apply insertString_sorted.
Qed.

Lemma sorted_NoDup_strict (l : list string) :
  StronglySorted (fun a b => String.leb a b = true) l -> NoDup l ->
  StronglySorted (fun a b => String.ltb a b = true) l.
Proof.
  induction 1 as [ | x l Hl IH Hx]; intros Hnd; [constructor | ].
  apply NoDup_cons in Hnd as [Hnot Hnd].
  constructor; [now apply IH | ].
  rewrite Forall_forall in Hx |- *. intros y Hy.
  specialize (Hx y Hy). unfold String.leb in Hx. unfold String.ltb.
  destruct (x ?= y)%string eqn:Hc; [ | reflexivity | discriminate].
  apply String.compare_eq_iff in Hc. subst. contradiction.
Qed.

(** What [[...new Set (values)].sort ()] holds: the values that occur, each
    once, in strictly ascending order. *)
Lemma sort_distinct_spec (values : list string) :
  StronglySorted (fun a b => String.ltb a b = true) (Js.sort (Js.distinct values)) /\
  (forall x, x ∈ Js.sort (Js.distinct values) <-> x ∈ values) /\
  length (Js.sort (Js.distinct values)) = length (Js.distinct values) /\
  (length (Js.distinct values) <= length values)%nat.
Proof.
  split; [ | split; [ | split]].
  - apply sorted_NoDup_strict; [apply sort_sorted | ].
    rewrite sort_perm. apply NoDup_distinctFrom.
  - intros x. rewrite sort_perm. unfold Js.distinct.
    rewrite elem_of_distinctFrom, elem_of_nil. tauto.
  - apply Permutation_length, sort_perm.
  - apply length_distinctFrom.
Qed.

(** ** Brands, statistics and lookup *)

Lemma canServe_ensured (w : World) (this : SearchService.t) :
  canServe w this ->
  exists this', SearchService.ensureInitialized w this = Return (tt, this').
Proof.
  unfold SearchService.ensureInitialized, SearchService.initialize.
  intros [-> | [parsed ->]]; [eauto | ].
  destruct (SearchService.isInitialized this); eauto.
Qed.

(** [getVehicleBrands] lists the brands of the record store, each once, in
    strictly ascending order of code units, and [total] is their number. *)
Theorem getVehicleBrands_sorted_distinct (w : World) (this : SearchService.t) :
  canServe w this ->
  exists r this',
    SearchService.getVehicleBrands w this = Return (r, this') /\
    SearchService.ensureInitialized w this = Return (tt, this') /\
    success r = true /\
    StronglySorted (fun a b => String.ltb a b = true) (BrandsData.brands (data r)) /\
    (forall b, b ∈ BrandsData.brands (data r)
               <-> exists it, it ∈ SearchService.inventory this' /\ marca_vehiculo it = b) /\
    BrandsData.total (data r) = length (BrandsData.brands (data r)).
Proof.
  intros Hcan. destruct (canServe_ensured w this Hcan) as [this' Hens].
  rewrite (getVehicleBrands_ensured _ _ _ Hens). cbv zeta.
  destruct (sort_distinct_spec (map marca_vehiculo (SearchService.inventory this')))
    as [Hsorted [Hmem [Hlen _]]].
  eexists. eexists. split; [reflexivity | ]. split; [exact Hens | ]. simpl.
  split; [reflexivity | ]. split; [exact Hsorted | ]. split; [ | now rewrite Hlen].
  intros b. rewrite Hmem, list_elem_of_In, in_map_iff.
  split; intros [it [H1 H2]]; exists it; rewrite ?list_elem_of_In in *; tauto.
Qed.

Lemma getVehicleBrands_sorted_distinct_witness :
  canServe Sample.world SearchService.constructor /\
  exists r this',
    SearchService.getVehicleBrands Sample.world SearchService.constructor
    = Return (r, this') /\
    BrandsData.total (data r) = length (BrandsData.brands (data r)).
Proof.
  assert (Hcan : canServe Sample.world SearchService.constructor)
    by (right; simpl; eauto).
  split; [exact Hcan | ].
  destruct (getVehicleBrands_sorted_distinct Sample.world SearchService.constructor Hcan)
    as [r [this' [Hrun [_ [_ [_ [_ Htotal]]]]]]].
  exists r, this'. auto.
Defined.

(** [getSearchStats] counts the records, lists brands, conditions and
    qualities each once in strictly ascending order, reports the same brands
    and brand count as [getVehicleBrands], and never more brands than records. *)
Theorem getSearchStats_consistent (w : World) (lastUpdated : string)
    (this : SearchService.t) :
  canServe w this ->
  exists r rb this',
    SearchService.getSearchStats w lastUpdated this = Return (r, this') /\
    SearchService.getVehicleBrands w this = Return (rb, this') /\
    StatsData.totalItems (data r) = length (SearchService.inventory this') /\
    StatsData.brands (data r) = BrandsData.brands (data rb) /\
    StatsData.uniqueBrands (data r) = BrandsData.total (data rb) /\
    (StatsData.uniqueBrands (data r) <= StatsData.totalItems (data r))%nat /\
    StronglySorted (fun a b => String.ltb a b = true) (StatsData.conditions (data r)) /\
    (forall c, c ∈ StatsData.conditions (data r)
               <-> exists it, it ∈ SearchService.inventory this' /\ condicion it = c) /\
    StronglySorted (fun a b => String.ltb a b = true) (StatsData.qualities (data r)) /\
    (forall c, c ∈ StatsData.qualities (data r)
               <-> exists it, it ∈ SearchService.inventory this' /\ calidad_repuesto it = c).
Proof.
  intros Hcan. destruct (canServe_ensured w this Hcan) as [this' Hens].
  rewrite (getSearchStats_ensured _ _ _ _ Hens), (getVehicleBrands_ensured _ _ _ Hens).
  cbv zeta.
  set (inv := SearchService.inventory this').
  destruct (sort_distinct_spec (map marca_vehiculo inv)) as [_ [_ [_ Hbrands]]].
  destruct (sort_distinct_spec (map condicion inv)) as [Hcs [Hcm _]].
  destruct (sort_distinct_spec (map calidad_repuesto inv)) as [Hqs [Hqm _]].
  eexists. eexists. eexists. split; [reflexivity | ]. split; [reflexivity | ]. simpl.
  split; [reflexivity | ]. split; [reflexivity | ]. split; [reflexivity | ].
  split; [now rewrite length_map in Hbrands | ].
  split; [exact Hcs | ]. split; [ | split; [exact Hqs | ]].
  - intros c. rewrite Hcm, list_elem_of_In, in_map_iff.
    split; intros [it [H1 H2]]; exists it; rewrite ?list_elem_of_In in *; tauto.
  - intros c. rewrite Hqm, list_elem_of_In, in_map_iff.
    split; intros [it [H1 H2]]; exists it; rewrite ?list_elem_of_In in *; tauto.
Qed.

Lemma getSearchStats_consistent_witness :
  canServe Sample.world SearchService.constructor /\
  exists r this',
    SearchService.getSearchStats Sample.world "2024-01-01T00:00:00.000Z"
      SearchService.constructor = Return (r, this') /\
    (StatsData.uniqueBrands (data r) <= StatsData.totalItems (data r))%nat.
Proof.
  assert (Hcan : canServe Sample.world SearchService.constructor)
    by (right; simpl; eauto).
  split; [exact Hcan | ].
  destruct (getSearchStats_consistent Sample.world "2024-01-01T00:00:00.000Z"
              SearchService.constructor Hcan)
    as [r [rb [this' [Hrun [_ [_ [_ [_ [Hle _]]]]]]]]].
  exists r, this'. auto.
Defined.

(** [find] returns the first element that passes the test. *)
Lemma find_first {A} (p : A -> bool) (l : list A) (x : A) :
  List.find p l = Some x ->
  exists pre post, l = pre ++ x :: post /\ p x = true /\ forall y, y ∈ pre -> p y = false.
Proof.
  induction l as [ | a l IH]; simpl; [discriminate | ].
  destruct (p a) eqn:Hpa.
  - intros [= ->]. exists [], l. split; [reflexivity | ]. split; [exact Hpa | ].
    intros y Hy. now apply elem_of_nil in Hy.
  - intros Hfind. destruct (IH Hfind) as [pre [post [-> [Hx Hpre]]]].
    exists (a :: pre), post. split; [reflexivity | ]. split; [exact Hx | ].
    intros y Hy. apply elem_of_cons in Hy as [-> | Hy]; auto.
Qed.

(** When several records carry the requested [producto_id], [getItemById]
    returns the first of them in store order. *)
Theorem getItemById_first_match (w : World) (productId : string) (this : SearchService.t) :
  canServe w this ->
  exists r this',
    SearchService.getItemById w productId this = Return (r, this') /\
    forall it, ItemResponse.data r = Some it ->
      producto_id it = productId /\
      exists pre post,
        SearchService.inventory this' = pre ++ it :: post /\
        forall x, x ∈ pre -> producto_id x <> productId.
Proof.
  intros Hcan. destruct (canServe_ensured w this Hcan) as [this' Hens].
  rewrite (getItemById_ensured _ _ _ _ Hens).
  eexists. eexists. split; [reflexivity | ].
  destruct (List.find _ (SearchService.inventory this')) as [found | ] eqn:Hfind;
    simpl; [ | discriminate].
  intros it [= <-].
  destruct (find_first _ _ _ Hfind) as [pre [post [Hsplit [Hid Hpre]]]].
  apply String.eqb_eq in Hid. split; [exact Hid | ].
  exists pre, post. split; [exact Hsplit | ].
  intros x Hx. specialize (Hpre x Hx). simpl in Hpre. now apply String.eqb_neq.
Qed.

Lemma getItemById_first_match_witness :
  canServe Sample.world SearchService.constructor /\
  exists r this',
    SearchService.getItemById Sample.world "A2" SearchService.constructor
    = Return (r, this') /\
    forall it, ItemResponse.data r = Some it -> producto_id it = "A2"%string.
Proof.
  assert (Hcan : canServe Sample.world SearchService.constructor)
    by (right; simpl; eauto).
  split; [exact Hcan | ].
  destruct (getItemById_first_match Sample.world "A2" SearchService.constructor Hcan)
    as [r [this' [Hrun Hfirst]]].
  exists r, this'. split; [exact Hrun | ].
  intros it Hit. exact (proj1 (Hfirst it Hit)).
Defined.

(** ** The HTTP handlers *)

Lemma orZ_nonzero (x : option Z) (d : Z) : d <> 0 -> Js.orZ x d <> 0.
Proof.
  intros Hd. unfold Js.orZ. destruct x as [z | ]; [ | exact Hd].
  destruct (Z.eqb_spec z 0); assumption.
Qed.

Lemma orUndefinedZ_nonzero (x : option Z) (z : Z) : Js.orUndefinedZ x = Some z -> z <> 0.
Proof.
  unfold Js.orUndefinedZ. destruct x as [y | ]; [ | discriminate].
  destruct (Z.eqb_spec y 0); [discriminate | congruence].
Qed.

(** The handlers never hand the service a limit or a page of 0. *)
Lemma optionsFrom_nonzero (w : World) (limit page : SearchController.Param)
    (threshold : option Q) :
  SearchService.actualLimit w (SearchController.optionsFrom limit page threshold) <> 0 /\
  SearchService.pageOf (SearchController.optionsFrom limit page threshold) <> 0.
Proof.
  unfold SearchService.actualLimit, SearchService.pageOf, SearchService.defaultLimit,
    SearchService.maxLimit, SearchController.optionsFrom. simpl.
  split; [ | apply orZ_nonzero; lia].
  pose proof (orZ_nonzero (DEFAULT_SEARCH_LIMIT (env w)) 10 ltac:(lia)) as Hdefault.
  pose proof (orZ_nonzero (MAX_SEARCH_LIMIT (env w)) 100 ltac:(lia)) as Hmax.
  destruct (Js.orUndefinedZ (SearchController.parseInt limit)) as [z | ] eqn:Hl; simpl.
  - apply orUndefinedZ_nonzero in Hl. lia.
  - lia.
Qed.

Lemma blank_false_truthy (s : option string) :
  SearchController.blank s = false -> Js.truthy s = true.
Proof.
  unfold SearchController.blank. destruct s as [text | ]; [ | discriminate].
  intros Hb. apply orb_false_iff in Hb as [Hb _]. now apply negb_false_iff in Hb.
Qed.

Lemma trimEnd_app_space (s : string) : Js.trimEnd (s ++ " ") = Js.trimEnd s.
Proof.
  induction s as [ | c s IH]; simpl; [reflexivity | ].
  now rewrite IH.
Qed.

(** A blank appended to a text does not survive [trim]. *)
Lemma trim_app_space (s : string) : Js.trim (s ++ " ") = Js.trim s.
Proof.
  unfold Js.trim. induction s as [ | c s IH]; simpl; [reflexivity | ].
  destruct (Js.isSpace c); [exact IH | ].
  change (String c (s ++ " ")) with (String c s ++ " ")%string.
  apply trimEnd_app_space.
Qed.

Section Http.
Context {matcher : Fuse.Matcher}.

(** A search over HTTP that is answered reports a limit and a page that are
    not 0 and a [totalPages] that is a number, never [NaN] or [Infinity]: the
    handler replaces a limit or page of 0 (or one that is not a number) by
    the default before the service sees it. *)
Theorem http_search_totalPages_finite (w : World) (query : SearchController.Query)
    (t0 t1 : Z) (this this' : SearchService.t) (f : Fuse.t) :
  SearchController.blank (SearchController.q query) = false ->
  serving w this = Some (this', f) ->
  exists r n,
    SearchController.search w query t0 t1 this = (SearchController.Json r, this') /\
    SearchData.totalPages (data r) = Js.Finite n /\
    SearchData.limit (data r) <> 0 /\
    SearchData.page (data r) <> 0 /\
    SearchData.limit (data r) <= SearchService.maxLimit w.
Proof.
  intros Hq Hs. unfold SearchController.search. rewrite Hq.
  rewrite (search_serving _ _ _ _ _ _ _ _ Hs). cbv zeta.
  destruct (optionsFrom_nonzero w (SearchController.limit query)
              (SearchController.page query) (SearchController.threshold query))
    as [Hlimit Hpage].
  change (SearchController.optionsFrom (SearchController.limit query)
            (SearchController.page query) (SearchController.threshold query))
    with (SearchController.optionsOf query) in Hlimit, Hpage.
  eexists. eexists. split; [reflexivity | ]. simpl.
  split.
  { unfold Js.ceilDiv.
    destruct (Z.eqb_spec (SearchService.actualLimit w (SearchController.optionsOf query)) 0);
      [contradiction | reflexivity]. }
  split; [exact Hlimit | ]. split; [exact Hpage | apply actualLimit_le_max].
Qed.

(** The brand and description handlers answer a non-blank text exactly as the
    plain search handler answers the same text given as [q] with the same
    [limit], [page] and [threshold]: no field restriction reaches the
    engine. *)
Theorem http_field_searches_are_search (w : World) (text : option string)
    (limit page : SearchController.Param) (threshold : option Q) (t0 t1 : Z)
    (this : SearchService.t) :
  SearchController.blank text = false ->
  SearchController.searchByBrand w (request None text limit page threshold) t0 t1 this
  = SearchController.search w (request text None limit page threshold) t0 t1 this /\
  SearchController.searchByDescription w text limit page threshold t0 t1 this
  = SearchController.search w (request text None limit page threshold) t0 t1 this.
Proof.
  intros Hb.
  unfold SearchController.searchByBrand, SearchController.searchByDescription,
    SearchController.search. simpl.
  rewrite Hb.
  split; reflexivity.
Qed.

(** The year-range handler with a year that is a number other than 0 answers
    with [yearFiltered: true], echoes the year, and returns only items whose
    range of years holds it. *)
Theorem http_year_search_in_range (w : World) (q : option string) (y : Z)
    (limit page : SearchController.Param) (t0 t1 : Z) (this this' : SearchService.t)
    (f : Fuse.t) :
  SearchController.blank q = false ->
  y <> 0 ->
  serving w this = Some (this', f) ->
  exists r,
    SearchController.searchWithYearRange w q (SearchController.Text (Some y)) limit page
      t0 t1 this = (SearchController.Json r, this') /\
    YearData.yearFiltered (data r) = true /\
    YearData.searchYear (data r) = Some y /\
    forall x, x ∈ YearData.results (data r) ->
      anio_desde (Formatted.item x) <= y <= anio_hasta (Formatted.item x).
Proof.
  intros Hq Hy Hs. unfold SearchController.searchWithYearRange. rewrite Hq. simpl.
  rewrite (searchWithYearRange_serving _ _ _ _ _ _ _ _ _ Hs). cbv zeta.
  eexists. split; [reflexivity | ]. simpl.
  destruct (Z.eqb_spec y 0) as [ | _]; [contradiction | ]. simpl.
  split; [reflexivity | ]. split; [reflexivity | ].
  intros x Hx.
  apply list_elem_of_In, in_map_iff in Hx as [c [<- Hc]].
  apply list_elem_of_In, elem_of_slice in Hc.
  apply list_elem_of_In, filter_In in Hc as [_ Hc].
  apply inYearRange_spec in Hc. exact Hc.
Qed.

(** The year-range handler accepts the year 0 (it is a number), but the
    service reads 0 as no year: the reply says [yearFiltered: false], carries
    [searchYear: null], and counts every candidate the engine returned. *)
Theorem http_year_zero_unfiltered (w : World) (q : option string)
    (limit page : SearchController.Param) (t0 t1 : Z) (this this' : SearchService.t)
    (f : Fuse.t) :
  SearchController.blank q = false ->
  serving w this = Some (this', f) ->
  exists r,
    SearchController.searchWithYearRange w q (SearchController.Text (Some 0)) limit page
      t0 t1 this = (SearchController.Json r, this') /\
    YearData.yearFiltered (data r) = false /\
    YearData.searchYear (data r) = None /\
    YearData.total (data r)
    = length (SearchService.textResults f w (Js.trim (Js.orDefault q EmptyString))
                (SearchController.optionsFrom limit page None)).
Proof.
  intros Hq Hs. unfold SearchController.searchWithYearRange. rewrite Hq. simpl.
  rewrite (searchWithYearRange_serving _ _ _ _ _ _ _ _ _ Hs). cbv zeta.
  eexists. split; [reflexivity | ]. simpl. repeat split.
Qed.

(** When [advancedSearch] gets a search term and a year bound, it keeps from
    the page that
    [search] returned the items whose first year [anio_desde] is not below
    [yearFrom] and not above [yearTo] (a bound that is not a number excludes
    nothing), sets [total] to the number of items kept, and leaves
    [totalPages] as [search] computed it. *)
Theorem advancedSearch_year_bounds (w : World) (query : SearchController.Query)
    (t0 t1 : Z) (this this' : SearchService.t) (f : Fuse.t) :
  Js.truthy (SearchController.q query) || Js.truthy (SearchController.brand query)
  || Js.truthy (SearchController.condition query)
  || Js.truthy (SearchController.quality query) = true ->
  SearchController.given (SearchController.yearFrom query)
  || SearchController.given (SearchController.yearTo query) = true ->
  serving w this = Some (this', f) ->
  exists r rs,
    SearchController.advancedSearch w query t0 t1 this = (SearchController.Json r, this') /\
    SearchService.search w (Js.trim (SearchController.searchQuery query))
      (SearchController.optionsOf query) t0 t1 this = Return (rs, this') /\
    SearchData.results (data r)
    = List.filter (SearchController.keepYear query) (SearchData.results (data rs)) /\
    SearchData.total (data r) = length (SearchData.results (data r)) /\
    SearchData.totalPages (data r) = SearchData.totalPages (data rs) /\
    forall x, x ∈ SearchData.results (data r) ->
      (forall a, SearchController.yearFrom query = SearchController.Text (Some a) ->
                 a <= anio_desde (Formatted.item x)) /\
      (forall b, SearchController.yearTo query = SearchController.Text (Some b) ->
                 anio_desde (Formatted.item x) <= b).
Proof.
  intros Hq Hgiven Hs. unfold SearchController.advancedSearch.
  assert (Hsome : negb (Js.truthy (SearchController.q query))
                  && negb (Js.truthy (SearchController.brand query))
                  && negb (Js.truthy (SearchController.condition query))
                  && negb (Js.truthy (SearchController.quality query)) = false).
  { destruct (Js.truthy (SearchController.q query)),
      (Js.truthy (SearchController.brand query)),
      (Js.truthy (SearchController.condition query)),
      (Js.truthy (SearchController.quality query)); simpl in *; congruence. }
  rewrite Hsome.
  rewrite (search_serving _ _ _ _ _ _ _ _ Hs). cbv zeta.
  rewrite Hgiven.
  eexists. eexists. split; [reflexivity | ]. split; [reflexivity | ]. simpl.
  split; [reflexivity | ]. split; [reflexivity | ]. split; [reflexivity | ].
  intros x Hx.
  apply list_elem_of_In, filter_In in Hx as [_ Hkeep].
  unfold SearchController.keepYear in Hkeep.
  destruct (SearchController.below _ _) eqn:Hbelow; [discriminate | ].
  destruct (SearchController.above _ _) eqn:Habove; [discriminate | ].
  split.
  - intros a Ha. rewrite Ha in Hbelow. simpl in Hbelow. lia.
  - intros b Hb. rewrite Hb in Habove. simpl in Habove. lia.
Qed.

(** A request to [advancedSearch] that carries only a non-blank [q] (no brand,
    condition, quality or year bound) is answered exactly as the plain search
    handler answers it: the blank appended to the term is trimmed away. *)
Theorem advancedSearch_only_q (w : World) (query : SearchController.Query) (t0 t1 : Z)
    (this : SearchService.t) :
  SearchController.blank (SearchController.q query) = false ->
  Js.truthy (SearchController.brand query) = false ->
  Js.truthy (SearchController.condition query) = false ->
  Js.truthy (SearchController.quality query) = false ->
  SearchController.yearFrom query = SearchController.Missing ->
  SearchController.yearTo query = SearchController.Missing ->
  SearchController.advancedSearch w query t0 t1 this
  = SearchController.search w query t0 t1 this.
Proof.
  intros Hq Hb Hc Hl Hfrom Hto.
  pose proof (blank_false_truthy _ Hq) as Htruthy.
  unfold SearchController.advancedSearch, SearchController.search.
  rewrite Hq, Htruthy, Hfrom, Hto. simpl.
  assert (Hquery : Js.trim (SearchController.searchQuery query)
                   = Js.trim (Js.orDefault (SearchController.q query) EmptyString)).
  { unfold SearchController.searchQuery, SearchController.addTerm.
    destruct (SearchController.q query) as [text | ]; [ | discriminate].
    rewrite Htruthy.
    destruct (SearchController.brand query); rewrite ?Hb;
      destruct (SearchController.condition query); rewrite ?Hc;
      destruct (SearchController.quality query); rewrite ?Hl;
      simpl; apply trim_app_space. }
  rewrite Hquery.
  now destruct (SearchService.search w _ _ t0 t1 this) as [[r s] | e].
Qed.

End Http.

Lemma http_search_totalPages_finite_witness :
  SearchController.blank (SearchController.q Sample.negativeLimitQuery) = false /\
  exists r n,
    SearchController.search (matcher := Sample.substring) Sample.world
      Sample.negativeLimitQuery 0 0 SearchService.constructor
    = (SearchController.Json r,
       initialized [Sample.A1; Sample.A2; Sample.A3] Sample.noEnv) /\
    SearchData.totalPages (data r) = Js.Finite n.
Proof.
  split; [reflexivity | ].
  destruct (http_search_totalPages_finite (matcher := Sample.substring) Sample.world
              Sample.negativeLimitQuery 0 0 _ _ _ eq_refl sample_serving)
    as [r [n [Hrun [Hn _]]]].
  exists r, n. auto.
Defined.

Lemma http_field_searches_are_search_witness :
  SearchController.blank (Some "Toyota"%string) = false /\
  SearchController.searchByBrand (matcher := Sample.substring) Sample.world
    (request None (Some "Toyota"%string) SearchController.Missing SearchController.Missing
       None) 0 0 SearchService.constructor
  = SearchController.search (matcher := Sample.substring) Sample.world
      (request (Some "Toyota"%string) None SearchController.Missing SearchController.Missing
         None) 0 0 SearchService.constructor.
Proof.
  split; [reflexivity | ].
  exact (proj1
    (http_field_searches_are_search (matcher := Sample.substring) Sample.world
       (Some "Toyota"%string) SearchController.Missing SearchController.Missing None 0 0
       SearchService.constructor eq_refl)).
Defined.

Lemma http_year_search_in_range_witness :
  SearchController.blank (Some "Toyota"%string) = false /\
  2012 <> 0 /\
  exists r,
    SearchController.searchWithYearRange (matcher := Sample.substring) Sample.world
      (Some "Toyota"%string) (SearchController.Text (Some 2012)) SearchController.Missing
      SearchController.Missing 0 0 SearchService.constructor
    = (SearchController.Json r,
       initialized [Sample.A1; Sample.A2; Sample.A3] Sample.noEnv) /\
    YearData.yearFiltered (data r) = true.
Proof.
  split; [reflexivity | ]. split; [lia | ].
  destruct (http_year_search_in_range (matcher := Sample.substring) Sample.world
              (Some "Toyota"%string) 2012 SearchController.Missing SearchController.Missing
              0 0 _ _ _ eq_refl ltac:(lia) sample_serving)
    as [r [Hrun [Hflag _]]].
  exists r. auto.
Defined.

Lemma http_year_zero_unfiltered_witness :
  SearchController.blank (Some "Toyota"%string) = false /\
  exists r,
    SearchController.searchWithYearRange (matcher := Sample.substring) Sample.world
      (Some "Toyota"%string) (SearchController.Text (Some 0)) SearchController.Missing
      SearchController.Missing 0 0 SearchService.constructor
    = (SearchController.Json r,
       initialized [Sample.A1; Sample.A2; Sample.A3] Sample.noEnv) /\
    YearData.yearFiltered (data r) = false.
Proof.
  split; [reflexivity | ].
  destruct (http_year_zero_unfiltered (matcher := Sample.substring) Sample.world
              (Some "Toyota"%string) SearchController.Missing SearchController.Missing
              0 0 _ _ _ eq_refl sample_serving)
    as [r [Hrun [Hflag _]]].
  exists r. auto.
Defined.

Lemma advancedSearch_year_bounds_witness :
  Js.truthy (SearchController.q Sample.advancedQuery)
  || Js.truthy (SearchController.brand Sample.advancedQuery)
  || Js.truthy (SearchController.condition Sample.advancedQuery)
  || Js.truthy (SearchController.quality Sample.advancedQuery) = true /\
  SearchController.given (SearchController.yearFrom Sample.advancedQuery)
  || SearchController.given (SearchController.yearTo Sample.advancedQuery) = true /\
  exists r,
    SearchController.advancedSearch (matcher := Sample.substring) Sample.world
      Sample.advancedQuery 0 0 SearchService.constructor
    = (SearchController.Json r,
       initialized [Sample.A1; Sample.A2; Sample.A3] Sample.noEnv) /\
    SearchData.total (data r) = length (SearchData.results (data r)).
Proof.
  split; [reflexivity | ]. split; [reflexivity | ].
  destruct (advancedSearch_year_bounds (matcher := Sample.substring) Sample.world
              Sample.advancedQuery 0 0 _ _ _ eq_refl eq_refl sample_serving)
    as [r [rs [Hrun [_ [_ [Htotal _]]]]]].
  exists r. auto.
Defined.

Lemma advancedSearch_only_q_witness :
  SearchController.blank (SearchController.q Sample.negativeLimitQuery) = false /\
  SearchController.advancedSearch (matcher := Sample.substring) Sample.world
    Sample.negativeLimitQuery 0 0 SearchService.constructor
  = SearchController.search (matcher := Sample.substring) Sample.world
      Sample.negativeLimitQuery 0 0 SearchService.constructor.
Proof.
  split; [reflexivity | ].
  exact (advancedSearch_only_q (matcher := Sample.substring) Sample.world
           Sample.negativeLimitQuery 0 0 SearchService.constructor
           eq_refl eq_refl eq_refl eq_refl eq_refl eq_refl).
Defined.

(** [GET /api/item/:productId] answers with the record and status 200 when
    some record of the store has that id, and with status 404 and
    [{ success: false, message: 'Item not found' }] when none has. *)
Theorem http_getItemById_status (w : World) (productId : string) (this : SearchService.t) :
  productId <> EmptyString ->
  canServe w this ->
  exists this',
    SearchService.ensureInitialized w this = Return (tt, this') /\
    ((exists it, it ∈ SearchService.inventory this' /\ producto_id it = productId) ->
     exists it,
       SearchController.getItemById w (Some productId) this
       = (SearchController.ItemJson
            {| ItemResponse.success := true;
               ItemResponse.data := Some it;
               ItemResponse.message := None |}, this') /\
       it ∈ SearchService.inventory this' /\ producto_id it = productId) /\
    ((forall it, it ∈ SearchService.inventory this' -> producto_id it <> productId) ->
     SearchController.getItemById w (Some productId) this
     = (SearchController.ItemStatus404
          {| ItemResponse.success := false;
             ItemResponse.data := None;
             ItemResponse.message := Some "Item not found"%string |}, this')).
Proof.
  intros Hid Hcan. destruct (canServe_ensured w this Hcan) as [this' Hens].
  exists this'. split; [exact Hens | ].
  unfold SearchController.getItemById.
  assert (Htruthy : Js.truthy (Some productId) = true)
    by (destruct productId; [contradiction | reflexivity]).
  rewrite Htruthy. simpl.
  rewrite (getItemById_ensured _ _ _ _ Hens).
  destruct (List.find _ (SearchService.inventory this')) as [found | ] eqn:Hfind; simpl.
  - apply find_some in Hfind as [Hin Heq]. apply String.eqb_eq in Heq.
    split.
    + intros _. exists found. rewrite list_elem_of_In. auto.
    + intros Hnone. exfalso. apply (Hnone found); [now apply list_elem_of_In | exact Heq].
  - split; [ | reflexivity].
    intros [it [Hin Heq]]. exfalso. apply list_elem_of_In in Hin.
    pose proof (find_none _ _ Hfind it Hin) as Hne. simpl in Hne.
    apply String.eqb_neq in Hne. contradiction.
Qed.

Lemma http_getItemById_status_witness :
  "ZZZ"%string <> EmptyString /\
  canServe Sample.world SearchService.constructor /\
  exists this',
    SearchService.ensureInitialized Sample.world SearchService.constructor
    = Return (tt, this').
Proof.
  assert (Hcan : canServe Sample.world SearchService.constructor)
    by (right; simpl; eauto).
  split; [discriminate | ]. split; [exact Hcan | ].
  destruct (http_getItemById_status Sample.world "ZZZ" SearchService.constructor
              ltac:(discriminate) Hcan) as [this' [Hens _]].
  exists this'. exact Hens.
Defined.

(** ** The error-handling middleware *)

Lemma isText_spec (field : option string) (text : string) :
  ErrorHandler.isText field text = true <-> field = Some text.
Proof.
  unfold ErrorHandler.isText. destruct field as [s | ]; [ | split; discriminate].
  rewrite String.eqb_eq. split; congruence.
Qed.

Ltac reflect_isText :=
  repeat match goal with
    | H : ErrorHandler.isText _ _ = true |- _ => apply isText_spec in H
    | H : ErrorHandler.isText ?f ?t = false |- _ =>
        assert (f <> Some t) by (intros E; apply isText_spec in E; congruence);
        clear H
    end.

(** [errorHandler] answers 400 exactly for errors named [ValidationError] or
    [CastError], 404 exactly for other errors whose code is [ENOENT], and 500
    for the rest; the body always says [success: false]; a [CastError] or an
    [ENOENT] gets a fixed message; and outside development mode the body
    carries neither the error's own text under [error] nor its stack. *)
Theorem errorHandler_status (err : ErrorHandler.Err) (nodeEnv : option string)
    (timestamp : string) :
  let status := fst (ErrorHandler.errorHandler err nodeEnv timestamp) in
  let body := snd (ErrorHandler.errorHandler err nodeEnv timestamp) in
  (status = 400%nat <->
     ErrorHandler.name err = Some "ValidationError"%string
     \/ ErrorHandler.name err = Some "CastError"%string) /\
  (status = 404%nat <->
     ErrorHandler.code err = Some "ENOENT"%string
     /\ ErrorHandler.name err <> Some "ValidationError"%string
     /\ ErrorHandler.name err <> Some "CastError"%string) /\
  (status = 400%nat \/ status = 404%nat \/ status = 500%nat) /\
  ErrorHandler.Body.success body = false /\
  (ErrorHandler.name err = Some "CastError"%string ->
   ErrorHandler.Body.message body = Some "Invalid data format"%string) /\
  (status = 404%nat ->
   ErrorHandler.Body.message body = Some "Resource not found"%string) /\
  (nodeEnv <> Some "development"%string ->
   ErrorHandler.Body.error body = None /\ ErrorHandler.Body.stack body = None).
Proof.
  cbv zeta. unfold ErrorHandler.errorHandler, ErrorHandler.classify.
  destruct (ErrorHandler.isText (ErrorHandler.name err) "ValidationError") eqn:Hv;
    [ | destruct (ErrorHandler.isText (ErrorHandler.name err) "CastError") eqn:Hc;
        [ | destruct (ErrorHandler.isText (ErrorHandler.code err) "ENOENT") eqn:He;
            [ | destruct (Js.truthy (ErrorHandler.message err)) ] ] ];
    destruct (ErrorHandler.isText nodeEnv "development") eqn:Hd;
    reflect_isText; simpl; intuition congruence.
Qed.

(** ** The query that [advancedSearch] builds *)

Lemma append_assoc (s1 s2 s3 : string) : ((s1 ++ s2) ++ s3 = s1 ++ (s2 ++ s3))%string.
Proof.
  induction s1 as [ | c s1 IH]; simpl; [reflexivity | ].
  now rewrite IH.
Qed.

(** The query built term by term is the given terms joined by blanks, with
    one more blank at the end. *)
Lemma searchQuery_joined (query : SearchController.Query) :
  givenTerms query <> [] ->
  SearchController.searchQuery query = (String.concat " " (givenTerms query) ++ " ")%string.
Proof.
  unfold givenTerms, SearchController.searchQuery, SearchController.addTerm.
  destruct (SearchController.q query) as [[ | c1 s1] | ];
    destruct (SearchController.brand query) as [[ | c2 s2] | ];
    destruct (SearchController.condition query) as [[ | c3 s3] | ];
    destruct (SearchController.quality query) as [[ | c4 s4] | ];
    cbn [Js.truthy omap list_omap String.concat];
    intros Hne; try (now contradiction Hne);
    rewrite ?append_assoc; reflexivity.
Qed.

Section AdvancedQuery.
Context {matcher : Fuse.Matcher}.

(** Without year bounds, [advancedSearch] answers with what the service
    returns for the given terms ([q], [brand], [condition], [quality], those
    that are not empty) joined by single blanks and trimmed, under the
    request's limit and page. *)
Theorem advancedSearch_joins_terms (w : World) (query : SearchController.Query)
    (t0 t1 : Z) (this : SearchService.t) :
  givenTerms query <> [] ->
  SearchController.yearFrom query = SearchController.Missing ->
  SearchController.yearTo query = SearchController.Missing ->
  SearchController.advancedSearch w query t0 t1 this
  = match SearchService.search w (Js.trim (String.concat " " (givenTerms query)))
            (SearchController.optionsOf query) t0 t1 this with
    | Return (result, this') => (SearchController.Json result, this')
    | Throw e => (SearchController.Next e, this)
    end.
Proof.
  intros Hterms Hfrom Hto.
  unfold SearchController.advancedSearch.
  rewrite (searchQuery_joined _ Hterms), trim_app_space, Hfrom, Hto. simpl.
  assert (Hsome : negb (Js.truthy (SearchController.q query))
                  && negb (Js.truthy (SearchController.brand query))
                  && negb (Js.truthy (SearchController.condition query))
                  && negb (Js.truthy (SearchController.quality query)) = false).
  { revert Hterms. unfold givenTerms. cbn [omap list_omap].
    destruct (Js.truthy (SearchController.q query)),
      (Js.truthy (SearchController.brand query)),
      (Js.truthy (SearchController.condition query)),
      (Js.truthy (SearchController.quality query)); simpl; try reflexivity.
    intros Hne. now contradiction Hne. }
  rewrite Hsome.
  now destruct (SearchService.search w _ _ t0 t1 this) as [[r s] | e].
Qed.

End AdvancedQuery.

Lemma advancedSearch_joins_terms_witness :
  givenTerms (request (Some "Toyota"%string) (Some "sensor"%string)
                SearchController.Missing SearchController.Missing None) <> [] /\
  String.concat " "
    (givenTerms (request (Some "Toyota"%string) (Some "sensor"%string)
                   SearchController.Missing SearchController.Missing None))
  = "Toyota sensor"%string /\
  SearchController.advancedSearch (matcher := Sample.substring) Sample.world
    (request (Some "Toyota"%string) (Some "sensor"%string)
       SearchController.Missing SearchController.Missing None) 0 0 SearchService.constructor
  = match SearchService.search (matcher := Sample.substring) Sample.world
            (Js.trim (String.concat " "
               (givenTerms (request (Some "Toyota"%string) (Some "sensor"%string)
                              SearchController.Missing SearchController.Missing None))))
            (SearchController.optionsOf
               (request (Some "Toyota"%string) (Some "sensor"%string)
                  SearchController.Missing SearchController.Missing None))
            0 0 SearchService.constructor with
    | Return (result, this') => (SearchController.Json result, this')
    | Throw e => (SearchController.Next e, SearchService.constructor)
    end.
Proof.
  split; [discriminate | ]. split; [reflexivity | ].
  exact (advancedSearch_joins_terms (matcher := Sample.substring) Sample.world
           (request (Some "Toyota"%string) (Some "sensor"%string)
              SearchController.Missing SearchController.Missing None)
           0 0 SearchService.constructor ltac:(discriminate) eq_refl eq_refl).
Defined.
